(** * cloudfront_signed_cookies.signer : a shallow embedding

    The module [cloudfront_signed_cookies/signer.py] defines one class,
    [Signer], which validates or builds a CloudFront access policy, renders it
    as JSON without spaces, signs it and encodes policy and signature as
    cookie values.

    Modelling decisions.
    - A Python [str] is the list of its code points ([pystr]); [bytes] is a
      list of numbers below 256 ([pybytes]).
    - A Python value that [json.dumps] can serialise is a [pyval]; floats are
      left out of the model.  A [dict] is the list of its items in insertion
      order; keys are strings.
    - A raised exception is a value of [exn] carried by [result]; the
      message of an exception is kept as the list of the fragments of its
      f-string ([message]).
    - Calls that reach outside the process (file system, clock, the signing
      primitive of the [cryptography] package) are recorded in a log of
      [event]s by the monad [M].
    - Methods that do not use [self] are modelled without it. *)

From Stdlib Require Import ZArith NArith List String Ascii Bool Lia Decimal
  DecimalPos SpecFloat.
Import ListNotations.

(** ** Strings and bytes *)

Abbreviation pystr := (list N) (only parsing).
Abbreviation pybytes := (list N) (only parsing).

(** [str "abc"] is the Python literal ["abc"]. *)
Definition str (s : string) : pystr :=
  map N_of_ascii (list_ascii_of_string s).

(** [a == b] on strings *)
Fixpoint str_eqb (a b : pystr) : bool :=
  match a, b with
  | [], [] => true
  | x :: a', y :: b' => (x =? y)%N && str_eqb a' b'
  | _, _ => false
  end.

(** [s.replace(old, new)] for a pattern [old] of one character. *)
Definition replace (old : N) (new : pystr) (s : pystr) : pystr :=
  flat_map (fun c => if N.eqb c old then new else [c]) s.

(** [sep.join(parts)] *)
Fixpoint join (sep : pystr) (parts : list pystr) : pystr :=
  match parts with
  | [] => []
  | [p] => p
  | p :: ps => p ++ sep ++ join sep ps
  end.

(** ** Values *)

#[local] Unset Elimination Schemes.
Inductive pyval : Type :=
| PyNone
| PyBool (b : bool)
| PyInt (z : Z)
| PyStr (s : pystr)
| PyList (l : list pyval)
| PyDict (items : list (pystr * pyval)).
#[local] Set Elimination Schemes.

Inductive pytype : Type :=
| TNoneType | TBool | TInt | TStr | TList | TDict.

(** [type(v)] *)
Definition type (v : pyval) : pytype :=
  match v with
  | PyNone => TNoneType
  | PyBool _ => TBool
  | PyInt _ => TInt
  | PyStr _ => TStr
  | PyList _ => TList
  | PyDict _ => TDict
  end.

Definition pytype_eqb (a b : pytype) : bool :=
  match a, b with
  | TNoneType, TNoneType | TBool, TBool | TInt, TInt
  | TStr, TStr | TList, TList | TDict, TDict => true
  | _, _ => false
  end.

(** Truth value of [v] in [if v:]. *)
Definition truthy (v : pyval) : bool :=
  match v with
  | PyNone => false
  | PyBool b => b
  | PyInt z => negb (Z.eqb z 0)
  | PyStr s => match s with [] => false | _ => true end
  | PyList l => match l with [] => false | _ => true end
  | PyDict items => match items with [] => false | _ => true end
  end.

(** ** Exceptions *)

Inductive exn_class : Type :=
| InvalidCloudFrontKeyId
| InvalidCustomPolicy
| PrivateKeyNotFound
| ValueError
| TypeError
| KeyError
| IndexError
| OverflowError
| UnicodeEncodeError
| UnicodeDecodeError
| OSError
| CryptographyError.

(** A piece of an exception message: literal text, or an interpolated
    value ([{key}]) or type ([{resource_type}]) of an f-string. *)
Inductive fragment : Type :=
| Lit (s : pystr)
| Fmt (v : pyval)
| FmtType (t : pytype).

Definition message := list fragment.

(** [Raised c m] is an exception raised by a [raise] statement of the source;
    [Builtin c] is raised by the interpreter or a library, its message is not
    modelled. *)
Inductive exn : Type :=
| Raised (c : exn_class) (m : message)
| Builtin (c : exn_class).

Definition exn_class_of (e : exn) : exn_class :=
  match e with Raised c _ => c | Builtin c => c end.

Inductive result (A : Type) : Type :=
| Ok (a : A)
| Raise (e : exn).
Arguments Ok {A} a.
Arguments Raise {A} e.

Definition rbind {A B} (r : result A) (k : A -> result B) : result B :=
  match r with
  | Ok a => k a
  | Raise e => Raise e
  end.

Declare Scope result_scope.
Delimit Scope result_scope with res.
Notation "x <- r ;; k" := (rbind r (fun x => k))
  (at level 61, r at next level, right associativity) : result_scope.

(** [for x in xs: body(x)], stopping at the first exception. *)
Fixpoint for_each {A} (body : A -> result unit) (xs : list A) : result unit :=
  match xs with
  | [] => Ok tt
  | x :: rest => rbind (body x) (fun _ => for_each body rest)
  end.

(** ** Subscription and iteration *)

Fixpoint lookup (k : pystr) (items : list (pystr * pyval)) : option pyval :=
  match items with
  | [] => None
  | (k', v) :: rest => if str_eqb k k' then Some v else lookup k rest
  end.

(** [v[k]] for a string [k]. *)
Definition getitem (v : pyval) (k : pystr) : result pyval :=
  match v with
  | PyDict items =>
      match lookup k items with
      | Some x => Ok x
      | None => Raise (Builtin KeyError)
      end
  | _ => Raise (Builtin TypeError)
  end.

(** [v[0]] *)
Definition getitem0 (v : pyval) : result pyval :=
  match v with
  | PyList l => match l with x :: _ => Ok x | [] => Raise (Builtin IndexError) end
  | _ => Raise (Builtin TypeError)
  end.

(** The values [for key in v] runs through. *)
Definition iter (v : pyval) : result (list pyval) :=
  match v with
  | PyDict items => Ok (map (fun kv => PyStr (fst kv)) items)
  | PyList l => Ok l
  | PyStr s => Ok (map (fun c => PyStr [c]) s)
  | _ => Raise (Builtin TypeError)
  end.

(** ** json.dumps with its default options *)

Module Json.

Definition hex_digit (n : N) : N :=
  if (n <? 10)%N then (48 + n)%N else (87 + n)%N.

(** ['{0:04x}'.format(n)] for [n] below [0x10000] *)
Definition hex4 (n : N) : pystr :=
  [ hex_digit ((n / 4096) mod 16)%N; hex_digit ((n / 256) mod 16)%N;
    hex_digit ((n / 16) mod 16)%N; hex_digit (n mod 16)%N ].

Definition u_escape (n : N) : pystr := [92; 117]%N ++ hex4 n.

Definition escape_char (c : N) : pystr :=
  if (c =? 92)%N then [92; 92]%N
  else if (c =? 34)%N then [92; 34]%N
  else if (c =? 8)%N then [92; 98]%N
  else if (c =? 12)%N then [92; 102]%N
  else if (c =? 10)%N then [92; 110]%N
  else if (c =? 13)%N then [92; 114]%N
  else if (c =? 9)%N then [92; 116]%N
  else if ((32 <=? c) && (c <=? 126))%N then [c]
  else if (c <? 65536)%N then u_escape c
  else
    let n := (c - 65536)%N in
    u_escape (N.lor 55296 (N.land (N.shiftr n 10) 1023))
    ++ u_escape (N.lor 56320 (N.land n 1023)).

Definition encode_basestring_ascii (s : pystr) : pystr :=
  [34%N] ++ flat_map escape_char s ++ [34%N].

Fixpoint uint_chars (d : Decimal.uint) : pystr :=
  match d with
  | Decimal.Nil => []
  | Decimal.D0 d => 48%N :: uint_chars d
  | Decimal.D1 d => 49%N :: uint_chars d
  | Decimal.D2 d => 50%N :: uint_chars d
  | Decimal.D3 d => 51%N :: uint_chars d
  | Decimal.D4 d => 52%N :: uint_chars d
  | Decimal.D5 d => 53%N :: uint_chars d
  | Decimal.D6 d => 54%N :: uint_chars d
  | Decimal.D7 d => 55%N :: uint_chars d
  | Decimal.D8 d => 56%N :: uint_chars d
  | Decimal.D9 d => 57%N :: uint_chars d
  end.

(** [int.__repr__] *)
Definition int_repr (z : Z) : pystr :=
  match Z.to_int z with
  | Decimal.Pos d => uint_chars d
  | Decimal.Neg d => 45%N :: uint_chars d
  end.

Fixpoint dumps (v : pyval) : pystr :=
  match v with
  | PyNone => str "null"
  | PyBool true => str "true"
  | PyBool false => str "false"
  | PyInt z => int_repr z
  | PyStr s => encode_basestring_ascii s
  | PyList l => str "[" ++ join (str ", ") (map dumps l) ++ str "]"
  | PyDict items =>
      str "{"
      ++ join (str ", ")
           (map (fun kv => let '(k, x) := kv in
                           encode_basestring_ascii k ++ str ": " ++ dumps x)
              items)
      ++ str "}"
  end.

End Json.

(** ** str.encode and bytes.decode (UTF-8) *)

Module Utf8.

Definition encode_char (c : N) : result pybytes :=
  if (c <? 128)%N then Ok [c]
  else if (c <? 2048)%N then
    Ok [N.lor 192 (N.shiftr c 6); N.lor 128 (N.land c 63)]
  else if (c <? 65536)%N then
    if ((55296 <=? c) && (c <=? 57343))%N then Raise (Builtin UnicodeEncodeError)
    else Ok [N.lor 224 (N.shiftr c 12);
             N.lor 128 (N.land (N.shiftr c 6) 63);
             N.lor 128 (N.land c 63)]
  else if (c <? 1114112)%N then
    Ok [N.lor 240 (N.shiftr c 18);
        N.lor 128 (N.land (N.shiftr c 12) 63);
        N.lor 128 (N.land (N.shiftr c 6) 63);
        N.lor 128 (N.land c 63)]
  else Raise (Builtin UnicodeEncodeError).

Fixpoint encode (s : pystr) : result pybytes :=
  match s with
  | [] => Ok []
  | c :: rest =>
      rbind (encode_char c) (fun b =>
      rbind (encode rest) (fun bs => Ok (b ++ bs)))
  end.

Definition is_cont (b : N) : bool := ((128 <=? b) && (b <? 192))%N.

Definition decode_error : result pystr := Raise (Builtin UnicodeDecodeError).

Fixpoint decode (b : pybytes) : result pystr :=
  match b with
  | [] => Ok []
  | b0 :: r0 =>
      if (b0 <? 128)%N then rbind (decode r0) (fun s => Ok (b0 :: s))
      else if ((194 <=? b0) && (b0 <? 224))%N then
        match r0 with
        | b1 :: r1 =>
            if is_cont b1 then
              rbind (decode r1) (fun s =>
                Ok (((b0 - 192) * 64 + (b1 - 128))%N :: s))
            else decode_error
        | _ => decode_error
        end
      else if ((224 <=? b0) && (b0 <? 240))%N then
        match r0 with
        | b1 :: b2 :: r2 =>
            let c := ((b0 - 224) * 4096 + (b1 - 128) * 64 + (b2 - 128))%N in
            if is_cont b1 && is_cont b2 && (2048 <=? c)%N
               && negb ((55296 <=? c) && (c <=? 57343))%N then
              rbind (decode r2) (fun s => Ok (c :: s))
            else decode_error
        | _ => decode_error
        end
      else if ((240 <=? b0) && (b0 <? 245))%N then
        match r0 with
        | b1 :: b2 :: b3 :: r3 =>
            let c := ((b0 - 240) * 262144 + (b1 - 128) * 4096
                      + (b2 - 128) * 64 + (b3 - 128))%N in
            if is_cont b1 && is_cont b2 && is_cont b3
               && (65536 <=? c)%N && (c <? 1114112)%N then
              rbind (decode r3) (fun s => Ok (c :: s))
            else decode_error
        | _ => decode_error
        end
      else decode_error
  end.

End Utf8.

(** ** base64.b64encode, and the standard decoding of RFC 4648 *)

Module Base64.

Definition alphabet : pystr :=
  str "ABCDEFGHIJKLMNOPQRSTUVWXYZabcdefghijklmnopqrstuvwxyz0123456789+/".

Definition pad : N := 61%N.

Definition b64char (i : N) : N := nth (N.to_nat i) alphabet 0%N.

Fixpoint b64encode (b : pybytes) : pybytes :=
  match b with
  | [] => []
  | [b0] =>
      [b64char (b0 / 4); b64char ((b0 mod 4) * 16); pad; pad]%N
  | [b0; b1] =>
      [b64char (b0 / 4); b64char ((b0 mod 4) * 16 + b1 / 16);
       b64char ((b1 mod 16) * 4); pad]%N
  | b0 :: b1 :: b2 :: rest =>
      [b64char (b0 / 4); b64char ((b0 mod 4) * 16 + b1 / 16);
       b64char ((b1 mod 16) * 4 + b2 / 64); b64char (b2 mod 64)]%N
      ++ b64encode rest
  end.

Fixpoint index_from (i : N) (c : N) (l : pystr) : option N :=
  match l with
  | [] => None
  | x :: rest => if (x =? c)%N then Some i else index_from (i + 1)%N c rest
  end.

Definition b64index (c : N) : option N := index_from 0%N c alphabet.

(** Standard decoding: groups of four characters, padding only in the last
    group, anything else refused. *)
Fixpoint b64decode (s : pybytes) : option pybytes :=
  match s with
  | [] => Some []
  | c0 :: c1 :: c2 :: c3 :: rest =>
      match b64index c0, b64index c1 with
      | Some i0, Some i1 =>
          if (c3 =? pad)%N then
            match rest with
            | [] =>
                if (c2 =? pad)%N then Some [i0 * 4 + i1 / 16]%N
                else
                  match b64index c2 with
                  | Some i2 =>
                      Some [i0 * 4 + i1 / 16; (i1 mod 16) * 16 + i2 / 4]%N
                  | None => None
                  end
            | _ => None
            end
          else
            match b64index c2, b64index c3, b64decode rest with
            | Some i2, Some i3, Some bs =>
                Some ([i0 * 4 + i1 / 16; (i1 mod 16) * 16 + i2 / 4;
                       (i2 mod 4) * 64 + i3]%N ++ bs)
            | _, _, _ => None
            end
      | _, _ => None
      end
  | _ => None
  end.

End Base64.

(** ** re.match, for patterns without alternation or open repetition *)

Module Re.

Inductive item : Type :=
| Bol                                         (* ^ *)
| Eol                                         (* $ *)
| WordBoundary                                (* \b *)
| Char (c : N)                                (* a literal character *)
| Class (ranges : list (N * N)) (count : nat) (* [a-b...]{count} *).

Definition in_ranges (ranges : list (N * N)) (c : N) : bool :=
  existsb (fun r => ((fst r <=? c) && (c <=? snd r))%N) ranges.

(** [\w] on the ASCII range: letters, digits and the underscore.  The Unicode
    table of alphanumerics above 127 is not modelled. *)
Definition is_word (c : N) : bool :=
  in_ranges [(48, 57); (65, 90); (97, 122); (95, 95)]%N c.

Definition is_word_opt (c : option N) : bool :=
  match c with Some x => is_word x | None => false end.

(** A matching position: the character before it, if any, and what is left
    of the subject. *)
Definition position := (option N * pystr)%type.

Fixpoint class_n (ranges : list (N * N)) (n : nat) (p : position)
  : option position :=
  match n with
  | O => Some p
  | S n' =>
      match snd p with
      | c :: rest =>
          if in_ranges ranges c then class_n ranges n' (Some c, rest)
          else None
      | [] => None
      end
  end.

Definition step (it : item) (p : position) : option position :=
  match it with
  | Bol => match fst p with None => Some p | Some _ => None end
  | Eol =>
      (* the end of the string, or just before a newline that ends it *)
      match snd p with
      | [] => Some p
      | [c] => if (c =? 10)%N then Some p else None
      | _ => None
      end
  | WordBoundary =>
      if xorb (is_word_opt (fst p)) (is_word_opt (hd_error (snd p)))
      then Some p else None
  | Char c =>
      match snd p with
      | c' :: rest => if (c' =? c)%N then Some (Some c', rest) else None
      | [] => None
      end
  | Class ranges n => class_n ranges n p
  end.

Fixpoint run (pattern : list item) (p : position) : bool :=
  match pattern with
  | [] => true
  | it :: pattern' =>
      match step it p with
      | Some p' => run pattern' p'
      | None => false
      end
  end.

(** [match(pattern, s)] is not [None]. *)
Definition match_ (pattern : list item) (s : pystr) : bool :=
  run pattern (None, s).

End Re.

(** ** The signing primitive of the cryptography package *)

Inductive HashAlgorithm : Type := SHA1 | SHA256 | SHA384 | SHA512.

Inductive MGF : Type := MGF1 (algorithm : HashAlgorithm).

Inductive SaltLength : Type := MAX_LENGTH | DIGEST_LENGTH | Salt (n : N).

Inductive Padding : Type :=
| PSS (mgf : MGF) (salt_length : SaltLength)
| PKCS1v15.

(** A loaded private key: its [sign] method. *)
Record PrivateKey : Type := {
  key_sign : pybytes -> Padding -> HashAlgorithm -> result pybytes
}.

(** ** Effects *)

Inductive event : Type :=
| EvExists (path : pystr)
| EvRead (path : pystr)
| EvLoadPem (data : pybytes)
| EvNow
| EvSign (data : pybytes) (padding : Padding) (algorithm : HashAlgorithm).

Definition M (A : Type) : Type := (list event * result A)%type.

Definition ret {A} (a : A) : M A := ([], Ok a).
Definition raise {A} (e : exn) : M A := ([], Raise e).
Definition lift {A} (r : result A) : M A := ([], r).
Definition emit {A} (ev : event) (r : result A) : M A := ([ev], r).

Definition bind {A B} (m : M A) (k : A -> M B) : M B :=
  match snd m with
  | Ok a => (fst m ++ fst (k a), snd (k a))
  | Raise e => (fst m, Raise e)
  end.

Declare Scope m_scope.
Delimit Scope m_scope with M.
Notation "x <- m ;; k" := (bind m (fun x => k))
  (at level 61, m at next level, right associativity) : m_scope.

(** What a run can observe of the machine. *)
Record Env : Type := {
  fs_exists : pystr -> bool;
  fs_read : pystr -> result pybytes;
  load_pem_private_key : pybytes -> result PrivateKey
}.

(** The clock and the zone of the machine: POSIX time at the call, in
    microseconds, and the rules of the local zone, which give the offset of
    local time from UTC, in seconds, at each POSIX second (what the C
    function [localtime] answers). *)
Record Clock : Type := {
  epoch_us : Z;
  zone : Z -> Z
}.

(** The offset of local time at the call, in microseconds. *)
Definition utc_offset_us (clk : Clock) : Z :=
  (1000000 * zone clk (epoch_us clk / 1000000))%Z.

(** ** datetime *)

Module Datetime.

(** A naive datetime is its number of microseconds since 1970-01-01T00:00. *)
Definition min_us : Z := -62135596800000000.
Definition max_us : Z := 253402300799999999.

Definition now (clk : Clock) : M Z :=
  emit EvNow (Ok (epoch_us clk + utc_offset_us clk)%Z).

(** [timedelta(seconds=s)], in microseconds *)
Definition timedelta (seconds : Z) : result Z :=
  if (Z.abs (seconds / 86400) >? 999999999)%Z then Raise (Builtin OverflowError)
  else Ok (seconds * 1000000)%Z.

(** [dt + delta] *)
Definition add (dt delta : Z) : result Z :=
  let r := (dt + delta)%Z in
  if ((r <? min_us) || (max_us <? r))%Z then Raise (Builtin OverflowError)
  else Ok r.

(** Naive datetimes in whole seconds: the first second of year 1 and the
    last of year 9999. *)
Definition min_s : Z := -62135596800.
Definition max_s : Z := 253402300799.

(** [local(u)] of the datetime module: the local time, in seconds, at POSIX
    second [u]; [ValueError] when its year is outside 1..9999. *)
Definition local (clk : Clock) (u : Z) : result Z :=
  let lt := (u + zone clk u)%Z in
  if ((lt <? min_s) || (max_s <? lt))%Z then Raise (Builtin ValueError)
  else Ok lt.

Definition max_fold_seconds : Z := 86400.

(** [local_to_seconds] for [fold = 0], the fold of a sum of a datetime and
    a timedelta: the POSIX second [u] with [local(u) = t], the earlier one
    when two exist, and the later candidate when [t] falls in a gap. *)
Definition local_to_seconds (clk : Clock) (t : Z) : result Z :=
  (lt <- local clk t ;;
   let a := (lt - t)%Z in
   let u1 := (t - a)%Z in
   t1 <- local clk u1 ;;
   found <-
     (if (t1 =? t)%Z then
        let u2 := (u1 - max_fold_seconds)%Z in
        lt' <- local clk u2 ;;
        let b := (lt' - u2)%Z in
        if (a =? b)%Z then Ok (inl u1) else Ok (inr b)
      else Ok (inr (t1 - u1)%Z)) ;;
   match found with
   | inl u => Ok u
   | inr b =>
       let u2 := (t - b)%Z in
       t2 <- local clk u2 ;;
       if (t2 =? t)%Z then Ok u2
       else if (t1 =? t)%Z then Ok u1
       else Ok (Z.max u1 u2)
   end)%res.

(** binary64 *)
Definition prec : Z := 53.
Definition emax : Z := 1024.

(** The float nearest to an integer. *)
Definition float_of_Z (z : Z) : spec_float :=
  binary_normalize prec emax z 0 false.

(** [dt.timestamp()] for a naive [dt]: the seconds of [local_to_seconds]
    plus [microsecond / 1e6], in binary64. *)
Definition timestamp (clk : Clock) (dt : Z) : result spec_float :=
  (seconds <- local_to_seconds clk (dt / 1000000)%Z ;;
   Ok (SFadd prec emax (float_of_Z seconds)
         (SFdiv prec emax (float_of_Z (dt mod 1000000)%Z)
            (float_of_Z 1000000))))%res.

(** [int(x)] for a float [x]: truncation towards zero. *)
Definition int_of_float (x : spec_float) : result Z :=
  match x with
  | S754_zero _ => Ok 0%Z
  | S754_finite negative m e =>
      let magnitude :=
        match e with
        | Z0 => Zpos m
        | Zpos p => (Zpos m * 2 ^ Zpos p)%Z
        | Zneg p => (Zpos m / 2 ^ Zpos p)%Z
        end in
      Ok (if negative then (- magnitude)%Z else magnitude)
  | S754_infinity _ => Raise (Builtin OverflowError)
  | S754_nan => Raise (Builtin ValueError)
  end.

(** [int(dt.timestamp())] *)
Definition int_timestamp (clk : Clock) (dt : Z) : result Z :=
  rbind (timestamp clk dt) int_of_float.

End Datetime.

(** ** class Signer *)

Module Signer.

Record t : Type := {
  cloudfront_key_id : pystr;
  priv_key : PrivateKey
}.

Definition HASH_ALGORITHM : pystr := str "SHA-384".

Definition hex_ranges : list (N * N) := [(48, 57); (97, 102)]%N.

(** [^[0-9a-f]{8}\b-[0-9a-f]{4}\b-[0-9a-f]{4}\b-[0-9a-f]{4}\b-[0-9a-f]{12}$] *)
Definition key_id_pattern : list Re.item :=
  [ Re.Bol;
    Re.Class hex_ranges 8; Re.WordBoundary; Re.Char 45;
    Re.Class hex_ranges 4; Re.WordBoundary; Re.Char 45;
    Re.Class hex_ranges 4; Re.WordBoundary; Re.Char 45;
    Re.Class hex_ranges 4; Re.WordBoundary; Re.Char 45;
    Re.Class hex_ranges 12;
    Re.Eol ]%N.

Definition __init__ (env : Env) (cloudfront_key_id priv_key_file : pystr)
  : M t :=
  if negb (Re.match_ key_id_pattern cloudfront_key_id) then
    raise (Raised InvalidCloudFrontKeyId
             [Lit (str "CloudFront public key ID must be a UUID string")])
  else
    (found <- emit (EvExists priv_key_file) (Ok (fs_exists env priv_key_file)) ;;
     if (found : bool) then
       key_bytes <- emit (EvRead priv_key_file) (fs_read env priv_key_file) ;;
       key <- emit (EvLoadPem key_bytes) (load_pem_private_key env key_bytes) ;;
       ret {| cloudfront_key_id := cloudfront_key_id; priv_key := key |}
     else
       raise (Raised PrivateKeyNotFound
                [Fmt (PyStr priv_key_file); Lit (str " not found")]))%M.

Definition _sign (self : t) (policy : pystr) : M pybytes :=
  (data <- lift (Utf8.encode policy) ;;
   emit (EvSign data (PSS (MGF1 SHA384) MAX_LENGTH) SHA384)
        (key_sign (priv_key self) data (PSS (MGF1 SHA384) MAX_LENGTH) SHA384))%M.

Definition allowed_condition_keys : list pystr :=
  [str "DateLessThan"; str "DateGreaterThan"; str "IpAddress"].

Definition allowed_condition_key_subkeys : list (pystr * pystr) :=
  [ (str "DateLessThan", str "AWS:EpochTime");
    (str "DateGreaterThan", str "AWS:EpochTime");
    (str "IpAddress", str "AWS:SourceIp") ].

Fixpoint subkey_of (key : pystr) (table : list (pystr * pystr))
  : result pystr :=
  match table with
  | [] => Raise (Builtin KeyError)
  | (k, v) :: rest => if str_eqb key k then Ok v else subkey_of key rest
  end.

Definition raise_missing_condition_exception {A} : result A :=
  Raise (Raised InvalidCustomPolicy
           [Lit (str "policy statement must have Condition block")]).

(** [try: body  except KeyError: handler] *)
Definition except_KeyError {A} (body handler : result A) : result A :=
  match body with
  | Raise e =>
      match exn_class_of e with
      | KeyError => handler
      | _ => body
      end
  | Ok _ => body
  end.

(** Lines 96-100 and 102-106: read [Condition], then [Resource]. *)
Definition condition_and_resource (statement : pyval)
  : result (pyval * pyval) :=
  except_KeyError
    (conditions <- getitem statement (str "Condition") ;;
     resource <- getitem statement (str "Resource") ;;
     Ok (conditions, resource))%res
    raise_missing_condition_exception.

(** Lines 123-142: the checks on the value under [sub_key]. *)
Definition check_subkey_value (sub_key : pystr) (value : pyval)
  : result unit :=
  let condition_key_subkey_value_type := type value in
  if str_eqb sub_key (str "AWS:EpochTime")
     && negb (pytype_eqb condition_key_subkey_value_type TInt) then
    Raise (Raised InvalidCustomPolicy
             [Lit (str "AWS:EpochTime value must be of type 'int'");
              Lit (str ", not "); FmtType condition_key_subkey_value_type])
  else if str_eqb sub_key (str "IpAddress")
          && negb (pytype_eqb condition_key_subkey_value_type TStr) then
    Raise (Raised InvalidCustomPolicy
             [Fmt (PyStr sub_key); Lit (str " value must be of type 'str'");
              Lit (str ", not "); FmtType condition_key_subkey_value_type])
  else Ok tt.

(** Lines 111-147: the body of [for key in conditions]. *)
Definition check_condition (conditions : pyval) (key : pyval) : result unit :=
  let invalid_key :=
    Raise (Raised InvalidCustomPolicy
             [Lit (str "invalid condition key: "); Fmt key;
              Lit (str " - key must be DateLessThan, DateGreaterThan, or IpAddress")])
  in
  match key with
  | PyStr k =>
      if negb (existsb (str_eqb k) allowed_condition_keys) then invalid_key
      else
        (value <- getitem conditions k ;;
         let condition_key_value_type := type value in
         match value with
         | PyDict sub_items =>
             for_each
               (fun sub_key =>
                  allowed <- subkey_of k allowed_condition_key_subkeys ;;
                  if negb (str_eqb sub_key allowed) then
                    Raise (Raised InvalidCustomPolicy
                             [Lit (str "invalid condition key sub-key found: ");
                              Fmt (PyStr sub_key)])
                  else
                    sub_value <- getitem value sub_key ;;
                    check_subkey_value sub_key sub_value)
               (map fst sub_items)
         | _ =>
             Raise (Raised InvalidCustomPolicy
                      [Lit (str "condition key value must be of type 'dict'");
                       Lit (str ", not "); FmtType condition_key_value_type])
         end)%res
  | _ => invalid_key
  end.

Definition _validate_custom_policy (policy : pyval) : result unit :=
  (statements <-
     except_KeyError (getitem policy (str "Statement"))
       (Raise (Raised InvalidCustomPolicy
                 [Lit (str "policy is missing Statement")])) ;;
   cr <-
     (if truthy statements then
        match type statements with
        | TList =>
            statement <- getitem0 statements ;;
            condition_and_resource statement
        | TDict => condition_and_resource statements
        | _ => Ok (PyDict [], PyStr [])
        end
      else
        Raise (Raised InvalidCustomPolicy
                 [Lit (str "policy statement is empty")])) ;;
   let '(conditions, resource) := cr in
   keys <- iter conditions ;;
   _ <- for_each (check_condition conditions) keys ;;
   let resource_type := type resource in
   if negb (pytype_eqb resource_type TStr) then
     Raise (Raised TypeError
              [Lit (str "provided Resource must be of type 'str', not '");
               FmtType resource_type; Lit (str "'")])
   else Ok tt)%res.

(** Line 182 *)
Definition _to_json (s : pyval) : pystr :=
  replace 32%N [] (Json.dumps s).

(** The dict literal of lines 159-166. *)
Definition canned_policy_document (resource : pystr) (expiration_date : Z)
  : pyval :=
  PyDict
    [ (str "Statement",
       PyList
         [ PyDict
             [ (str "Resource", PyStr resource);
               (str "Condition",
                PyDict
                  [ (str "DateLessThan",
                     PyDict [ (str "AWS:EpochTime", PyInt expiration_date) ]) ])
             ] ]) ].

Definition _make_canned_policy (resource : pystr) (expiration_date : Z)
  : pystr :=
  let policy := canned_policy_document resource expiration_date in
  _to_json policy.

Definition _sanitize_b64 (s : pystr) : pystr :=
  fold_left (fun s kv => replace (fst kv) [snd kv] s)
    [(43, 45); (61, 95); (47, 126)]%N s.

Definition generate_cookies (self : t) (clk : Clock)
  (Resource : pystr) (Policy : pyval) (SecondsBeforeExpires : Z)
  : M (list (pystr * pystr)) :=
  (policy <-
     (if truthy Policy then
        _ <- lift (_validate_custom_policy Policy) ;;
        ret (_to_json Policy)
      else
        match Resource with
        | [] =>
            raise (Raised ValueError [Lit (str "must provide a resource URL")])
        | _ =>
            now <- Datetime.now clk ;;
            delta <- lift (Datetime.timedelta SecondsBeforeExpires) ;;
            expires_on <- lift (Datetime.add now delta) ;;
            expiration_date <- lift (Datetime.int_timestamp clk expires_on) ;;
            ret (_make_canned_policy Resource expiration_date)
        end) ;;
   signature <- _sign self policy ;;
   policy_bytes <- lift (Utf8.encode policy) ;;
   encoded_policy <- lift (Utf8.decode (Base64.b64encode policy_bytes)) ;;
   encoded_signature <- lift (Utf8.decode (Base64.b64encode signature)) ;;
   ret [ (str "CloudFront-Policy", _sanitize_b64 encoded_policy);
         (str "CloudFront-Signature", _sanitize_b64 encoded_signature);
         (str "CloudFront-Key-Pair-Id", cloudfront_key_id self) ])%M.

End Signer.

(** ** Definitions used to state the properties *)

(** [d[k]] on a dict of strings, as returned by [generate_cookies]. *)
Fixpoint assoc (k : pystr) (items : list (pystr * pystr)) : option pystr :=
  match items with
  | [] => None
  | (k', v) :: rest => if str_eqb k k' then Some v else assoc k rest
  end.

(** The substitution of [_sanitize_b64] read backwards:
    [~] to [/], [_] to [=], [-] to [+]. *)
Definition unsanitize_b64 (s : pystr) : pystr :=
  fold_left (fun s kv => replace (fst kv) [snd kv] s)
    [(126, 47); (95, 61); (45, 43)]%N s.

(** The statement the validator looks at: the mapping itself, or the first
    element of the sequence. *)
Definition examined_statement (statements : pyval) : option pyval :=
  match statements with
  | PyDict _ => Some statements
  | PyList (statement :: _) => Some statement
  | _ => None
  end.

(** The textual UUID format 8-4-4-4-12 in lowercase hexadecimal digits,
    written without reference to the regular expression. *)
Definition is_lower_hex (c : N) : bool :=
  (((48 <=? c) && (c <=? 57)) || ((97 <=? c) && (c <=? 102)))%N.

Fixpoint hex_run (n : nat) (s : pystr) : option pystr :=
  match n with
  | O => Some s
  | S n' =>
      match s with
      | c :: rest => if is_lower_hex c then hex_run n' rest else None
      | [] => None
      end
  end.

Fixpoint is_groups (groups : list nat) (s : pystr) : bool :=
  match groups with
  | [] => false
  | [n] => match hex_run n s with Some [] => true | _ => false end
  | n :: more =>
      match hex_run n s with
      | Some (c :: rest) => (c =? 45)%N && is_groups more rest
      | _ => false
      end
  end.

Definition is_uuid (s : pystr) : bool := is_groups [8; 4; 4; 4; 12]%nat s.

(** The two halves of [generate_cookies]: lines 199-210 choose the policy
    string, lines 211-221 sign and encode it. *)
Definition chosen_policy (clk : Clock)
  (Resource : pystr) (Policy : pyval) (SecondsBeforeExpires : Z) : M pystr :=
  if truthy Policy then
    (_ <- lift (Signer._validate_custom_policy Policy) ;;
     ret (Signer._to_json Policy))%M
  else
    match Resource with
    | [] => raise (Raised ValueError [Lit (str "must provide a resource URL")])
    | _ =>
        (now <- Datetime.now clk ;;
         delta <- lift (Datetime.timedelta SecondsBeforeExpires) ;;
         expires_on <- lift (Datetime.add now delta) ;;
         expiration_date <- lift (Datetime.int_timestamp clk expires_on) ;;
         ret (Signer._make_canned_policy Resource expiration_date))%M
    end.

Definition encode_cookies (self : Signer.t) (policy : pystr)
  : M (list (pystr * pystr)) :=
  (signature <- Signer._sign self policy ;;
   policy_bytes <- lift (Utf8.encode policy) ;;
   encoded_policy <- lift (Utf8.decode (Base64.b64encode policy_bytes)) ;;
   encoded_signature <- lift (Utf8.decode (Base64.b64encode signature)) ;;
   ret [ (str "CloudFront-Policy", Signer._sanitize_b64 encoded_policy);
         (str "CloudFront-Signature", Signer._sanitize_b64 encoded_signature);
         (str "CloudFront-Key-Pair-Id", Signer.cloudfront_key_id self) ])%M.

(** The exception of line 25. *)
Definition invalid_key_id : exn :=
  Raised InvalidCloudFrontKeyId
    [Lit (str "CloudFront public key ID must be a UUID string")].

(** The scheme of line 44-47. *)
Definition pss_sha384 : Padding := PSS (MGF1 SHA384) MAX_LENGTH.

(** What the pattern of [__init__] lets through, group by group: as
    [is_groups], but the last group may be followed by one newline. *)
Fixpoint groups_nl (groups : list nat) (s : pystr) : bool :=
  match groups with
  | [] => false
  | [n] =>
      match hex_run n s with
      | Some [] => true
      | Some [c] => (c =? 10)%N
      | _ => false
      end
  | n :: more =>
      match hex_run n s with
      | Some (c :: rest) => (c =? 45)%N && groups_nl more rest
      | _ => false
      end
  end.

(** The pattern of [__init__] after its [^], written from its groups. *)
Fixpoint groups_pattern (groups : list nat) : list Re.item :=
  match groups with
  | [] => []
  | [n] => [Re.Class Signer.hex_ranges n; Re.Eol]
  | n :: more =>
      Re.Class Signer.hex_ranges n :: Re.WordBoundary :: Re.Char 45
      :: groups_pattern more
  end.

(** Printable ASCII: from the space to the tilde. *)
Definition printable (c : N) : Prop := (32 <= c <= 126)%N.

(** Sample data. *)
Definition sample_key_id : pystr := str "550e8400-e29b-41d4-a716-446655440000".

Definition sample_key : PrivateKey :=
  {| key_sign := fun _ _ _ => Ok [251; 255; 0; 62]%N |}.

Definition sample_env : Env :=
  {| fs_exists := fun _ => true;
     fs_read := fun _ => Ok [];
     load_pem_private_key := fun _ => Ok sample_key |}.

Definition sample_signer : Signer.t :=
  {| Signer.cloudfront_key_id := sample_key_id;
     Signer.priv_key := sample_key |}.

Definition sample_clock : Clock :=
  {| epoch_us := 1700000000999999; zone := fun _ => 3600%Z |}.

(** Central European time around the end of summer time 2023: two hours
    ahead of UTC before 2023-10-29T01:00:00Z, one hour from then on. *)
Definition central_european_autumn_2023 (u : Z) : Z :=
  if (u <? 1698541200)%Z then 7200%Z else 3600%Z.

(** 2023-10-29T01:10:00Z, ten minutes after the change: 02:10 local time,
    for the second time that night. *)
Definition clock_after_fall_back : Clock :=
  {| epoch_us := 1698541800000000; zone := central_european_autumn_2023 |}.

Definition sample_resource : pystr := str "https://cdn.example.com/video.mp4".

(** A key identifier followed by a newline. *)
Definition key_id_with_newline : pystr := sample_key_id ++ [10%N].

(** [{"Statement": 5}] and [{"Statement": [5]}] *)
Definition policy_statement_int : pyval :=
  PyDict [ (str "Statement", PyInt 5) ].

Definition policy_statement_list_int : pyval :=
  PyDict [ (str "Statement", PyList [PyInt 5]) ].

(** A policy whose [AWS:SourceIp] is the integer 42. *)
Definition policy_source_ip_int : pyval :=
  PyDict
    [ (str "Statement",
       PyDict
         [ (str "Resource", PyStr (str "https://x/y"));
           (str "Condition",
            PyDict
              [ (str "DateLessThan",
                 PyDict [ (str "AWS:EpochTime", PyInt 2000000000) ]);
                (str "IpAddress",
                 PyDict [ (str "AWS:SourceIp", PyInt 42) ])
              ]) ]) ].

(** A policy with a resource and no condition. *)
Definition policy_no_condition : pyval :=
  PyDict
    [ (str "Statement",
       PyList
         [ PyDict
             [ (str "Resource", PyStr (str "https://x/y"));
               (str "Condition", PyDict []) ] ]) ].

Definition sample_custom_policy : pyval :=
  PyDict
    [ (str "Statement",
       PyDict
         [ (str "Resource", PyStr (str "https://x/y"));
           (str "Condition",
            PyDict
              [ (str "DateLessThan",
                 PyDict [ (str "AWS:EpochTime", PyInt 2000000000) ]);
                (str "IpAddress",
                 PyDict [ (str "AWS:SourceIp", PyStr (str "203.0.113.0/24")) ])
              ]) ]) ].

(** ** Definitions used to state further properties *)

(** An [InvalidCustomPolicy] raised by the validator, whatever its message. *)
Definition is_invalid_policy (r : result unit) : Prop :=
  exists m, r = Raise (Raised InvalidCustomPolicy m).

(** The exception of lines 150-153 for a resource of type [t]. *)
Definition resource_type_error (t : pytype) : exn :=
  Raised TypeError
    [Lit (str "provided Resource must be of type 'str', not '");
     FmtType t; Lit (str "'")].

(** What the loop of lines 110-147 lets through, entry by entry: a date
    condition whose sub-keys are all [AWS:EpochTime] with an [int] value, or
    an [IpAddress] condition whose sub-keys are all [AWS:SourceIp]. *)
Definition is_date_key (k : pystr) : bool :=
  str_eqb k (str "DateLessThan") || str_eqb k (str "DateGreaterThan").

Definition condition_entry_ok (entry : pystr * pyval) : bool :=
  match snd entry with
  | PyDict sub_items =>
      (is_date_key (fst entry)
       && forallb (fun kv => str_eqb (fst kv) (str "AWS:EpochTime")
                             && pytype_eqb (type (snd kv)) TInt) sub_items)
      || (str_eqb (fst entry) (str "IpAddress")
          && forallb (fun kv => str_eqb (fst kv) (str "AWS:SourceIp"))
               sub_items)
  | _ => false
  end.

(** Characters of a cookie value: letters, digits, [-], [_] and [~]. *)
Definition cookie_safe (c : N) : bool :=
  (((65 <=? c) && (c <=? 90)) || ((97 <=? c) && (c <=? 122))
   || ((48 <=? c) && (c <=? 57))
   || (c =? 45) || (c =? 95) || (c =? 126))%N.

(** ** Induction on values *)

Section PyvalInd.

Variable P : pyval -> Prop.
Hypothesis HNone : P PyNone.
Hypothesis HBool : forall b, P (PyBool b).
Hypothesis HInt : forall z, P (PyInt z).
Hypothesis HStr : forall s, P (PyStr s).
Hypothesis HList : forall l, Forall P l -> P (PyList l).
Hypothesis HDict :
  forall items, Forall (fun kv => P (snd kv)) items -> P (PyDict items).

Fixpoint pyval_ind (v : pyval) : P v :=
  match v with
  | PyNone => HNone
  | PyBool b => HBool b
  | PyInt z => HInt z
  | PyStr s => HStr s
  | PyList l =>
      HList l
        ((fix go (l : list pyval) : Forall P l :=
            match l with
            | [] => Forall_nil _
            | x :: rest => Forall_cons x (pyval_ind x) (go rest)
            end) l)
  | PyDict items =>
      HDict items
        ((fix go (items : list (pystr * pyval))
            : Forall (fun kv => P (snd kv)) items :=
            match items with
            | [] => Forall_nil _
            | kv :: rest =>
                Forall_cons (P := fun kv => P (snd kv)) kv
                  (pyval_ind (snd kv)) (go rest)
            end) items)
  end.

End PyvalInd.

(** ** Strings *)

Lemma str_eqb_eq (a b : pystr) : str_eqb a b = true <-> a = b.
Proof.
  revert b. induction a as [|x a IH]; intros [|y b]; cbn [str_eqb];
    try (split; congruence).
  rewrite andb_true_iff, N.eqb_eq, IH. split.
  - now intros [-> ->].
  - intros H. inversion H. auto.
Qed.

Lemma str_eqb_refl (a : pystr) : str_eqb a a = true.
Proof. now apply str_eqb_eq. Qed.

Lemma replace_app (old : N) (new a b : pystr) :
  replace old new (a ++ b) = replace old new a ++ replace old new b.
Proof. unfold replace. apply flat_map_app. Qed.

Lemma replace_cons (old : N) (new : pystr) (c : N) (s : pystr) :
  replace old new (c :: s)
  = (if (c =? old)%N then new else [c]) ++ replace old new s.
Proof. reflexivity. Qed.

Lemma replace_map (old new : N) (s : pystr) :
  replace old [new] s = map (fun c => if (c =? old)%N then new else c) s.
Proof.
  induction s as [|c s IH]; [reflexivity|].
  rewrite replace_cons, IH. simpl. now destruct (c =? old)%N.
Qed.

Lemma replace_delete_not_in (old : N) (s : pystr) :
  ~ In old (replace old [] s).
Proof.
  induction s as [|c s IH]; [intros []|].
  rewrite replace_cons. destruct (N.eqb_spec c old) as [->|Hne]; simpl.
  - exact IH.
  - intros [H|H]; [congruence | now apply IH].
Qed.

Lemma replace_absent (old : N) (new s : pystr) :
  ~ In old s -> replace old new s = s.
Proof.
  induction s as [|c s IH]; intros Hn; [reflexivity|].
  rewrite replace_cons, IH by (intros H; apply Hn; now right).
  destruct (N.eqb_spec c old) as [->|_]; [|reflexivity].
  exfalso. apply Hn. now left.
Qed.

Lemma replace_incl (old : N) (s : pystr) (c : N) :
  In c (replace old [] s) -> In c s.
Proof.
  induction s as [|x s IH]; [intros []|].
  rewrite replace_cons. intros H. apply in_app_or in H as [H|H].
  - destruct (x =? old)%N; simpl in H; [tauto|]. left. tauto.
  - right. auto.
Qed.

Lemma replace_join (old : N) (sep : pystr) (parts : list pystr) :
  replace old [] (join sep parts)
  = join (replace old [] sep) (map (replace old []) parts).
Proof.
  induction parts as [|p ps IH]; [reflexivity|].
  destruct ps as [|q ps]; [reflexivity|].
  change (join sep (p :: q :: ps)) with (p ++ sep ++ join sep (q :: ps)).
  rewrite !replace_app, IH. reflexivity.
Qed.

Lemma Forall_join (Q : N -> Prop) (sep : pystr) (parts : list pystr) :
  Forall Q sep -> Forall (Forall Q) parts -> Forall Q (join sep parts).
Proof.
  intros Hsep. induction 1 as [|p ps Hp Hps IH]; [constructor|].
  destruct ps as [|q ps]; [exact Hp|].
  change (join sep (p :: q :: ps)) with (p ++ sep ++ join sep (q :: ps)).
  rewrite !Forall_app. auto.
Qed.

(** ** json.dumps emits printable ASCII only *)

Lemma hex_digit_printable (n : N) :
  (n < 16)%N -> printable (Json.hex_digit n) /\ Json.hex_digit n <> 32%N.
Proof.
  intros Hn. unfold Json.hex_digit, printable.
  destruct (N.ltb_spec n 10); lia.
Qed.

Lemma hex4_printable (n : N) :
  Forall (fun c => printable c /\ c <> 32%N) (Json.hex4 n).
Proof.
  unfold Json.hex4.
  repeat constructor; apply hex_digit_printable; apply N.mod_lt; lia.
Qed.

Lemma u_escape_printable (n : N) :
  Forall (fun c => printable c /\ c <> 32%N) (Json.u_escape n).
Proof.
  unfold Json.u_escape. apply Forall_app. split.
  - repeat constructor; unfold printable; lia.
  - apply hex4_printable.
Qed.

Lemma escape_char_cases (c : N) :
  Json.escape_char c = [c] /\ printable c
  \/ Forall (fun x => printable x /\ x <> 32%N) (Json.escape_char c).
Proof.
  unfold Json.escape_char.
  repeat match goal with
  | |- context [if (c =? ?k)%N then _ else _] =>
      destruct (N.eqb_spec c k);
      [right; repeat constructor; unfold printable; lia|]
  end.
  destruct (N.leb_spec 32 c); destruct (N.leb_spec c 126); cbn [andb].
  1: left; unfold printable; split; [reflexivity | lia].
  all: right; destruct (c <? 65536)%N;
    [apply u_escape_printable
    |apply Forall_app; split; apply u_escape_printable].
Qed.

Lemma escape_char_printable (c : N) : Forall printable (Json.escape_char c).
Proof.
  destruct (escape_char_cases c) as [[-> H]|H].
  - constructor; [exact H | constructor].
  - eapply Forall_impl; [|exact H]. now intros x [Hx _].
Qed.

Lemma escape_char_space : Json.escape_char 32 = [32%N].
Proof. reflexivity. Qed.

Lemma escape_char_no_space (c : N) :
  c <> 32%N -> ~ In 32%N (Json.escape_char c).
Proof.
  intros Hc. destruct (escape_char_cases c) as [[-> _]|H].
  - simpl. intuition congruence.
  - rewrite Forall_forall in H. intros Hin. now destruct (H _ Hin).
Qed.

Lemma encode_basestring_ascii_printable (s : pystr) :
  Forall printable (Json.encode_basestring_ascii s).
Proof.
  unfold Json.encode_basestring_ascii. rewrite !Forall_app.
  repeat split; try (repeat constructor; unfold printable; lia).
  induction s as [|c s IH]; simpl; [constructor|].
  apply Forall_app. split; [apply escape_char_printable | exact IH].
Qed.

Lemma uint_chars_digits (d : Decimal.uint) :
  Forall (fun c => 48 <= c <= 57)%N (Json.uint_chars d).
Proof. induction d; simpl; constructor; auto; lia. Qed.

Lemma int_repr_printable (z : Z) : Forall printable (Json.int_repr z).
Proof.
  unfold Json.int_repr.
  assert (H : forall d, Forall printable (Json.uint_chars d)).
  { intros d. eapply Forall_impl; [|apply uint_chars_digits].
    unfold printable. simpl. intros; lia. }
  destruct (Z.to_int z); [apply H|].
  constructor; [unfold printable; lia | apply H].
Qed.

Lemma int_repr_no_space (z : Z) : ~ In 32%N (Json.int_repr z).
Proof.
  unfold Json.int_repr.
  assert (H : forall d, ~ In 32%N (Json.uint_chars d)).
  { intros d Hin. pose proof (uint_chars_digits d) as Hd.
    rewrite Forall_forall in Hd. specialize (Hd _ Hin). simpl in Hd. lia. }
  destruct (Z.to_int z); [apply H|].
  simpl. intros [Heq|Hin]; [discriminate | now apply (H d)].
Qed.

Lemma str_printable_lit (l : pystr) :
  forallb (fun c => (32 <=? c) && (c <=? 126))%N l = true -> Forall printable l.
Proof.
  intros H. rewrite forallb_forall in H. apply Forall_forall. intros c Hc.
  specialize (H c Hc). unfold printable.
  apply andb_true_iff in H as [H1 H2].
  apply N.leb_le in H1. apply N.leb_le in H2. lia.
Qed.

Lemma dumps_list (l : list pyval) :
  Json.dumps (PyList l)
  = str "[" ++ join (str ", ") (map Json.dumps l) ++ str "]".
Proof. reflexivity. Qed.

Lemma dumps_dict (items : list (pystr * pyval)) :
  Json.dumps (PyDict items)
  = str "{"
    ++ join (str ", ")
         (map (fun kv => Json.encode_basestring_ascii (fst kv)
                         ++ str ": " ++ Json.dumps (snd kv)) items)
    ++ str "}".
Proof.
  change (Json.dumps (PyDict items))
    with (str "{"
          ++ join (str ", ")
               (map (fun kv => let '(k, x) := kv in
                               Json.encode_basestring_ascii k
                               ++ str ": " ++ Json.dumps x) items)
          ++ str "}").
  do 3 f_equal. apply map_ext. now intros [k x].
Qed.

Lemma dumps_printable (v : pyval) : Forall printable (Json.dumps v).
Proof.
  induction v as [| [|] | z | s | l IH | items IH] using pyval_ind.
  - now apply str_printable_lit.
  - now apply str_printable_lit.
  - now apply str_printable_lit.
  - apply int_repr_printable.
  - apply encode_basestring_ascii_printable.
  - rewrite dumps_list, !Forall_app.
    repeat split; try now apply str_printable_lit.
    apply Forall_join; [now apply str_printable_lit|].
    rewrite Forall_map. exact IH.
  - rewrite dumps_dict, !Forall_app.
    repeat split; try now apply str_printable_lit.
    apply Forall_join; [now apply str_printable_lit|].
    rewrite Forall_map. eapply Forall_impl; [|exact IH].
    intros [k x] Hx. simpl in Hx. rewrite !Forall_app. repeat split.
    + apply encode_basestring_ascii_printable.
    + now apply str_printable_lit.
    + exact Hx.
Qed.

Lemma to_json_printable (d : pyval) : Forall printable (Signer._to_json d).
Proof.
  unfold Signer._to_json. apply Forall_forall. intros c Hc.
  apply replace_incl in Hc.
  pose proof (dumps_printable d) as H. rewrite Forall_forall in H. auto.
Qed.

Lemma to_json_visible (d : pyval) :
  Forall (fun c => 33 <= c <= 126)%N (Signer._to_json d).
Proof.
  apply Forall_forall. intros c Hc.
  pose proof (to_json_printable d) as H. rewrite Forall_forall in H.
  specialize (H c Hc). unfold printable in H.
  assert (c <> 32%N).
  { intros ->. revert Hc. apply replace_delete_not_in. }
  lia.
Qed.

(** ** Canonical form *)

Lemma replace_escape (s : pystr) :
  replace 32 [] (flat_map Json.escape_char s)
  = flat_map Json.escape_char (replace 32 [] s).
Proof.
  induction s as [|c s IH]; [reflexivity|].
  cbn [flat_map]. rewrite replace_app, replace_cons, IH.
  destruct (N.eqb_spec c 32) as [->|Hc].
  - reflexivity.
  - rewrite (replace_absent 32%N []) by now apply escape_char_no_space.
    reflexivity.
Qed.

Lemma to_json_str (s : pystr) :
  Signer._to_json (PyStr s)
  = [34%N] ++ flat_map Json.escape_char (replace 32 [] s) ++ [34%N].
Proof.
  unfold Signer._to_json. cbn [Json.dumps]. unfold Json.encode_basestring_ascii.
  rewrite !replace_app, replace_escape. reflexivity.
Qed.

Lemma to_json_list (l : list pyval) :
  Signer._to_json (PyList l)
  = str "[" ++ join (str ",") (map Signer._to_json l) ++ str "]".
Proof.
  unfold Signer._to_json at 1.
  rewrite dumps_list, !replace_app, replace_join, map_map. reflexivity.
Qed.

Lemma to_json_dict (items : list (pystr * pyval)) :
  Signer._to_json (PyDict items)
  = str "{"
    ++ join (str ",")
         (map (fun kv => Signer._to_json (PyStr (fst kv))
                         ++ str ":" ++ Signer._to_json (snd kv)) items)
    ++ str "}".
Proof.
  unfold Signer._to_json at 1.
  rewrite dumps_dict, !replace_app, replace_join, map_map.
  change (replace 32 [] (str "{")) with (str "{").
  change (replace 32 [] (str "}")) with (str "}").
  change (replace 32 [] (str ", ")) with (str ",").
  apply (f_equal (fun x => str "{" ++ x ++ str "}")).
  apply (f_equal (join (str ","))).
  apply map_ext. intros [k x].
  rewrite !replace_app. reflexivity.
Qed.

Lemma to_json_int (z : Z) : Signer._to_json (PyInt z) = Json.int_repr z.
Proof.
  unfold Signer._to_json. apply replace_absent. apply int_repr_no_space.
Qed.

Lemma make_canned_policy_text (resource : pystr) (expiration_date : Z) :
  Signer._make_canned_policy resource expiration_date
  = str "{" ++ [34%N] ++ str "Statement" ++ [34%N] ++ str ":[{"
    ++ [34%N] ++ str "Resource" ++ [34%N] ++ str ":"
    ++ Signer._to_json (PyStr resource)
    ++ str "," ++ [34%N] ++ str "Condition" ++ [34%N] ++ str ":{"
    ++ [34%N] ++ str "DateLessThan" ++ [34%N] ++ str ":{"
    ++ [34%N] ++ str "AWS:EpochTime" ++ [34%N] ++ str ":"
    ++ Json.int_repr expiration_date
    ++ str "}}}]}".
Proof.
  unfold Signer._make_canned_policy, Signer.canned_policy_document.
  repeat (rewrite ?to_json_dict, ?to_json_list; cbn [map join fst snd]).
  rewrite to_json_int.
  change (Signer._to_json (PyStr (str "Statement")))
    with ([34%N] ++ str "Statement" ++ [34%N]).
  change (Signer._to_json (PyStr (str "Resource")))
    with ([34%N] ++ str "Resource" ++ [34%N]).
  change (Signer._to_json (PyStr (str "Condition")))
    with ([34%N] ++ str "Condition" ++ [34%N]).
  change (Signer._to_json (PyStr (str "DateLessThan")))
    with ([34%N] ++ str "DateLessThan" ++ [34%N]).
  change (Signer._to_json (PyStr (str "AWS:EpochTime")))
    with ([34%N] ++ str "AWS:EpochTime" ++ [34%N]).
  repeat rewrite <- app_assoc. reflexivity.
Qed.

(** C1.  Canonicalisation is a function of the document alone: equal
    documents give equal strings.  The string holds no space and no newline
    (so none at its end), it lists the items of a dict and the elements of a
    list in their own order, which for a canned policy is the order in which
    [_make_canned_policy] writes them and for a custom policy the order of
    the document, and a string value is rendered as the same value with its
    spaces taken out. *)
Theorem to_json_canonical :
  (forall d d' : pyval, d = d' -> Signer._to_json d = Signer._to_json d')
  /\ (forall d : pyval,
        ~ In 32%N (Signer._to_json d)
        /\ ~ In 10%N (Signer._to_json d)
        /\ (forall pre, Signer._to_json d <> pre ++ [10%N]))
  /\ (forall items : list (pystr * pyval),
        Signer._to_json (PyDict items)
        = str "{"
          ++ join (str ",")
               (map (fun kv => Signer._to_json (PyStr (fst kv))
                               ++ str ":" ++ Signer._to_json (snd kv)) items)
          ++ str "}")
  /\ (forall l : list pyval,
        Signer._to_json (PyList l)
        = str "[" ++ join (str ",") (map Signer._to_json l) ++ str "]")
  /\ (forall (resource : pystr) (expiration_date : Z),
        Signer._make_canned_policy resource expiration_date
        = str "{" ++ [34%N] ++ str "Statement" ++ [34%N] ++ str ":[{"
          ++ [34%N] ++ str "Resource" ++ [34%N] ++ str ":"
          ++ Signer._to_json (PyStr resource)
          ++ str "," ++ [34%N] ++ str "Condition" ++ [34%N] ++ str ":{"
          ++ [34%N] ++ str "DateLessThan" ++ [34%N] ++ str ":{"
          ++ [34%N] ++ str "AWS:EpochTime" ++ [34%N] ++ str ":"
          ++ Json.int_repr expiration_date
          ++ str "}}}]}")
  /\ (forall s : pystr,
        Signer._to_json (PyStr s)
        = [34%N] ++ flat_map Json.escape_char (replace 32 [] s) ++ [34%N]
        /\ Signer._to_json (PyStr s) = Signer._to_json (PyStr (replace 32 [] s))).
Proof.
  split; [intros d d' ->; reflexivity|].
  split.
  { intros d.
    assert (Hnl : ~ In 10%N (Signer._to_json d)).
    { intros Hin. pose proof (to_json_visible d) as H.
      rewrite Forall_forall in H. specialize (H _ Hin). simpl in H. lia. }
    split; [apply replace_delete_not_in|]. split; [exact Hnl|].
    intros pre Heq. apply Hnl. rewrite Heq. apply in_or_app. right. now left. }
  split; [exact to_json_dict|].
  split; [exact to_json_list|].
  split; [exact make_canned_policy_text|].
  intros s. split; [apply to_json_str|].
  rewrite !to_json_str. do 2 f_equal.
  rewrite (replace_absent 32%N [] (replace 32 [] s)); [reflexivity|].
  apply replace_delete_not_in.
Qed.

Lemma to_json_canonical_witness :
  Signer._to_json (PyStr (str "a b")) = Signer._to_json (PyStr (str "a b")).
Proof.
  apply (proj1 to_json_canonical (PyStr (str "a b")) (PyStr (str "a b"))).
  reflexivity.
Defined.

(** ** UTF-8 on ASCII text *)

Lemma utf8_encode_ascii (s : pystr) :
  Forall (fun c => c < 128)%N s -> Utf8.encode s = Ok s.
Proof.
  induction 1 as [|c s Hc _ IH]; [reflexivity|].
  cbn [Utf8.encode]. unfold Utf8.encode_char.
  apply N.ltb_lt in Hc. rewrite Hc, IH. reflexivity.
Qed.

Lemma utf8_decode_ascii (b : pybytes) :
  Forall (fun c => c < 128)%N b -> Utf8.decode b = Ok b.
Proof.
  induction 1 as [|c s Hc _ IH]; [reflexivity|].
  cbn [Utf8.decode]. apply N.ltb_lt in Hc. rewrite Hc, IH. reflexivity.
Qed.

Lemma to_json_ascii (d : pyval) :
  Forall (fun c => c < 128)%N (Signer._to_json d).
Proof.
  eapply Forall_impl; [|apply to_json_visible]. simpl. intros; lia.
Qed.

(** ** Base64 *)

Lemma list_ind3 (A : Type) (P : list A -> Prop) :
  P [] -> (forall a, P [a]) -> (forall a b, P [a; b]) ->
  (forall a b c l, P l -> P (a :: b :: c :: l)) ->
  forall l, P l.
Proof.
  intros H0 H1 H2 H3.
  fix go 1. intros [|a [|b [|c l]]].
  - exact H0.
  - apply H1.
  - apply H2.
  - apply H3. apply go.
Qed.

Lemma below_64_cases (Q : N -> bool) :
  forallb Q (map N.of_nat (seq 0 64)) = true ->
  forall i, (i < 64)%N -> Q i = true.
Proof.
  intros H i Hi. rewrite forallb_forall in H. apply H.
  rewrite <- (N2Nat.id i). apply in_map. apply in_seq. lia.
Qed.

Lemma b64index_b64char (i : N) :
  (i < 64)%N -> Base64.b64index (Base64.b64char i) = Some i.
Proof.
  intros Hi.
  pose proof (below_64_cases
    (fun i => match Base64.b64index (Base64.b64char i) with
              | Some j => (j =? i)%N
              | None => false
              end) eq_refl i Hi) as H.
  cbv beta in H.
  destruct (Base64.b64index (Base64.b64char i)); [|discriminate].
  apply N.eqb_eq in H. now subst.
Qed.

Lemma b64char_not_pad (i : N) :
  (i < 64)%N -> (Base64.b64char i =? Base64.pad)%N = false.
Proof.
  intros Hi.
  pose proof (below_64_cases
    (fun i => negb (Base64.b64char i =? Base64.pad)%N) eq_refl i Hi) as H.
  cbv beta in H. now apply negb_true_iff in H.
Qed.

(** A character of an encoding: of the alphabet, the padding, or the
    default of the table lookup. *)
Lemma b64char_all (Q : N -> Prop) (i : N) :
  Forall Q Base64.alphabet -> Q 0%N -> Q (Base64.b64char i).
Proof.
  intros HQ H0. unfold Base64.b64char.
  destruct (nth_in_or_default (N.to_nat i) Base64.alphabet 0%N) as [Hin | ->].
  - rewrite Forall_forall in HQ. auto.
  - exact H0.
Qed.

Lemma b64encode_all (Q : N -> Prop) (b : pybytes) :
  Forall Q Base64.alphabet -> Q 0%N -> Q Base64.pad ->
  Forall Q (Base64.b64encode b).
Proof.
  intros HQ H0 Hp.
  assert (Hc : forall i, Q (Base64.b64char i)) by (intros; now apply b64char_all).
  induction b as [| b0 | b0 b1 | b0 b1 b2 rest IH] using list_ind3;
    cbn [Base64.b64encode].
  - constructor.
  - repeat (constructor; [solve [apply Hc | exact Hp]|]). constructor.
  - repeat (constructor; [solve [apply Hc | exact Hp]|]). constructor.
  - apply Forall_app. split; [|exact IH].
    repeat (constructor; [solve [apply Hc | exact Hp]|]). constructor.
Qed.

Lemma forallb_Forall (Q : N -> bool) (l : pystr) :
  forallb Q l = true -> Forall (fun c => Q c = true) l.
Proof. intros H. apply Forall_forall. now apply forallb_forall. Qed.

Lemma b64encode_ascii (b : pybytes) :
  Forall (fun c => c < 128)%N (Base64.b64encode b).
Proof.
  eapply Forall_impl;
    [|apply (b64encode_all (fun c => (c <? 128)%N = true));
      [now apply forallb_Forall | reflexivity | reflexivity]].
  intros c. apply N.ltb_lt.
Qed.

Ltac div_mod_lia :=
  repeat match goal with
  | |- context [(?a / ?b)%N] =>
      let q := fresh "q" in let r := fresh "r" in
      pose proof (N.div_mod a b ltac:(lia));
      pose proof (N.mod_lt a b ltac:(lia));
      set (q := (a / b)%N) in *; set (r := (a mod b)%N) in *;
      clearbody q r
  | |- context [(?a mod ?b)%N] =>
      let q := fresh "q" in let r := fresh "r" in
      pose proof (N.div_mod a b ltac:(lia));
      pose proof (N.mod_lt a b ltac:(lia));
      set (q := (a / b)%N) in *; set (r := (a mod b)%N) in *;
      clearbody q r
  end; lia.

Lemma sextets3 (b0 b1 b2 : N) :
  (b0 < 256)%N -> (b1 < 256)%N -> (b2 < 256)%N ->
  let i0 := (b0 / 4)%N in
  let i1 := ((b0 mod 4) * 16 + b1 / 16)%N in
  let i2 := ((b1 mod 16) * 4 + b2 / 64)%N in
  let i3 := (b2 mod 64)%N in
  (i0 < 64 /\ i1 < 64 /\ i2 < 64 /\ i3 < 64
   /\ i0 * 4 + i1 / 16 = b0
   /\ (i1 mod 16) * 16 + i2 / 4 = b1
   /\ (i2 mod 4) * 64 + i3 = b2)%N.
Proof.
  intros H0 H1 H2. cbv zeta.
  pose proof (N.div_mod b0 4 ltac:(lia)). pose proof (N.mod_lt b0 4 ltac:(lia)).
  pose proof (N.div_mod b1 16 ltac:(lia)). pose proof (N.mod_lt b1 16 ltac:(lia)).
  pose proof (N.div_mod b2 64 ltac:(lia)). pose proof (N.mod_lt b2 64 ltac:(lia)).
  set (q0 := (b0 / 4)%N) in *. set (r0 := (b0 mod 4)%N) in *.
  set (q1 := (b1 / 16)%N) in *. set (r1 := (b1 mod 16)%N) in *.
  set (q2 := (b2 / 64)%N) in *. set (r2 := (b2 mod 64)%N) in *.
  clearbody q0 r0 q1 r1 q2 r2.
  repeat split; try lia; div_mod_lia.
Qed.

Lemma b64encode_cons3 (b0 b1 b2 : N) (rest : pybytes) :
  Base64.b64encode (b0 :: b1 :: b2 :: rest)
  = (Base64.b64char (b0 / 4)
     :: Base64.b64char ((b0 mod 4) * 16 + b1 / 16)
     :: Base64.b64char ((b1 mod 16) * 4 + b2 / 64)
     :: Base64.b64char (b2 mod 64)
     :: Base64.b64encode rest)%N.
Proof. reflexivity. Qed.

Lemma b64decode_b64encode (b : pybytes) :
  Forall (fun c => c < 256)%N b ->
  Base64.b64decode (Base64.b64encode b) = Some b.
Proof.
  induction b as [| b0 | b0 b1 | b0 b1 b2 rest IH] using list_ind3;
    intros Hb.
  - reflexivity.
  - inversion Hb as [|? ? H0 _]; subst.
    destruct (sextets3 b0 0 0 H0 ltac:(lia) ltac:(lia))
      as (Hi0 & Hi1 & _ & _ & E0 & _ & _).
    cbv zeta in *. change (0 / 16)%N with 0%N in *.
    rewrite N.add_0_r in Hi1, E0.
    cbn [Base64.b64encode Base64.b64decode].
    rewrite !b64index_b64char by assumption.
    rewrite N.eqb_refl. now rewrite E0.
  - inversion Hb as [|? ? H0 Hb']; subst.
    inversion Hb' as [|? ? H1 _]; subst.
    destruct (sextets3 b0 b1 0 H0 H1 ltac:(lia))
      as (Hi0 & Hi1 & Hi2 & _ & E0 & E1 & _).
    cbv zeta in *. change (0 / 64)%N with 0%N in *.
    rewrite N.add_0_r in Hi2, E1.
    cbn [Base64.b64encode Base64.b64decode].
    rewrite !b64index_b64char by assumption.
    rewrite N.eqb_refl, b64char_not_pad by assumption.
    now rewrite E0, E1.
  - inversion Hb as [|? ? H0 Hb']; subst.
    inversion Hb' as [|? ? H1 Hb'']; subst.
    inversion Hb'' as [|? ? H2 Hrest]; subst.
    destruct (sextets3 b0 b1 b2 H0 H1 H2)
      as (Hi0 & Hi1 & Hi2 & Hi3 & E0 & E1 & E2).
    cbv zeta in *.
    rewrite b64encode_cons3. cbn [Base64.b64decode].
    rewrite !b64index_b64char by assumption.
    rewrite b64char_not_pad by assumption.
    rewrite (IH Hrest). now rewrite E0, E1, E2.
Qed.

(** ** The substitution and its inverse *)

Lemma sanitize_b64_map (s : pystr) :
  Signer._sanitize_b64 s
  = map (fun c => if (c =? 43) then 45
                  else if (c =? 61) then 95
                  else if (c =? 47) then 126 else c)%N s.
Proof.
  unfold Signer._sanitize_b64. cbn [fold_left fst snd].
  rewrite !replace_map, !map_map. apply map_ext. intros c.
  destruct (N.eqb_spec c 43) as [->|]; [reflexivity|].
  destruct (N.eqb_spec c 61) as [->|]; [reflexivity|].
  reflexivity.
Qed.

Lemma unsanitize_b64_map (s : pystr) :
  unsanitize_b64 s
  = map (fun c => if (c =? 126) then 47
                  else if (c =? 95) then 61
                  else if (c =? 45) then 43 else c)%N s.
Proof.
  unfold unsanitize_b64. cbn [fold_left fst snd].
  rewrite !replace_map, !map_map. apply map_ext. intros c.
  destruct (N.eqb_spec c 126) as [->|]; [reflexivity|].
  destruct (N.eqb_spec c 95) as [->|]; [reflexivity|].
  reflexivity.
Qed.

Lemma unsanitize_sanitize (s : pystr) :
  Forall (fun c => c <> 45 /\ c <> 95 /\ c <> 126)%N s ->
  unsanitize_b64 (Signer._sanitize_b64 s) = s.
Proof.
  intros Hs. rewrite sanitize_b64_map, unsanitize_b64_map, map_map.
  rewrite <- (map_id s) at 2. apply map_ext_in. intros c Hc.
  rewrite Forall_forall in Hs. destruct (Hs c Hc) as (H1 & H2 & H3).
  destruct (N.eqb_spec c 43) as [->|]; [reflexivity|].
  destruct (N.eqb_spec c 61) as [->|]; [reflexivity|].
  destruct (N.eqb_spec c 47) as [->|]; [reflexivity|].
  destruct (N.eqb_spec c 126); [contradiction|].
  destruct (N.eqb_spec c 95); [contradiction|].
  destruct (N.eqb_spec c 45); [contradiction|].
  reflexivity.
Qed.

Lemma b64encode_unsanitized (b : pybytes) :
  Forall (fun c => c <> 45 /\ c <> 95 /\ c <> 126)%N (Base64.b64encode b).
Proof.
  eapply Forall_impl;
    [|apply (b64encode_all
               (fun c => negb ((c =? 45) || (c =? 95) || (c =? 126))%N = true));
      [now apply forallb_Forall | reflexivity | reflexivity]].
  intros c H. apply negb_true_iff in H.
  apply orb_false_iff in H as [H H3]. apply orb_false_iff in H as [H1 H2].
  apply N.eqb_neq in H1, H2, H3. auto.
Qed.

(** ** The two halves of generate_cookies *)

Lemma generate_cookies_phases (self : Signer.t) (clk : Clock)
  (R : pystr) (P : pyval) (S : Z) :
  Signer.generate_cookies self clk R P S
  = bind (chosen_policy clk R P S) (encode_cookies self).
Proof. reflexivity. Qed.

Lemma sign_unfold (self : Signer.t) (policy : pystr) :
  Signer._sign self policy
  = match Utf8.encode policy with
    | Ok data =>
        ([EvSign data pss_sha384 SHA384],
         key_sign (Signer.priv_key self) data pss_sha384 SHA384)
    | Raise e => ([], Raise e)
    end.
Proof.
  unfold Signer._sign, bind, lift, emit, pss_sha384.
  destruct (Utf8.encode policy); reflexivity.
Qed.

Lemma encode_cookies_ascii (self : Signer.t) (policy : pystr) :
  Forall (fun c => c < 128)%N policy ->
  encode_cookies self policy
  = ([EvSign policy pss_sha384 SHA384],
     match key_sign (Signer.priv_key self) policy pss_sha384 SHA384 with
     | Ok signature =>
         Ok [ (str "CloudFront-Policy",
               Signer._sanitize_b64 (Base64.b64encode policy));
              (str "CloudFront-Signature",
               Signer._sanitize_b64 (Base64.b64encode signature));
              (str "CloudFront-Key-Pair-Id", Signer.cloudfront_key_id self) ]
     | Raise e => Raise e
     end).
Proof.
  intros Hp. unfold encode_cookies.
  rewrite sign_unfold, (utf8_encode_ascii policy Hp).
  unfold bind, lift, ret. cbn [fst snd].
  destruct (key_sign (Signer.priv_key self) policy pss_sha384 SHA384)
    as [signature|e]; [|reflexivity].
  rewrite !(utf8_decode_ascii _ (b64encode_ascii _)).
  reflexivity.
Qed.

Lemma chosen_policy_custom (clk : Clock) (R : pystr) (P : pyval) (S : Z) :
  truthy P = true ->
  chosen_policy clk R P S
  = ([], match Signer._validate_custom_policy P with
         | Ok _ => Ok (Signer._to_json P)
         | Raise e => Raise e
         end).
Proof.
  intros HP. unfold chosen_policy. rewrite HP.
  unfold bind, lift, ret. cbn [fst snd].
  destruct (Signer._validate_custom_policy P); reflexivity.
Qed.

Lemma chosen_policy_missing (clk : Clock) (P : pyval) (S : Z) :
  truthy P = false ->
  chosen_policy clk [] P S
  = ([], Raise (Raised ValueError [Lit (str "must provide a resource URL")])).
Proof. intros HP. unfold chosen_policy. now rewrite HP. Qed.

Lemma chosen_policy_canned (clk : Clock) (R : pystr) (P : pyval) (S : Z) :
  truthy P = false -> R <> [] ->
  chosen_policy clk R P S
  = ([EvNow],
     rbind (Datetime.timedelta S) (fun delta =>
     rbind (Datetime.add (epoch_us clk + utc_offset_us clk) delta)
       (fun expires_on =>
     rbind (Datetime.int_timestamp clk expires_on)
       (fun expiration_date =>
          Ok (Signer._make_canned_policy R expiration_date))))).
Proof.
  intros HP HR. unfold chosen_policy. rewrite HP.
  destruct R as [|c R]; [congruence|].
  unfold bind, lift, ret, Datetime.now, emit. cbn [fst snd].
  destruct (Datetime.timedelta S) as [delta|e]; cbn [rbind fst snd app];
    [|reflexivity].
  destruct (Datetime.add (epoch_us clk + utc_offset_us clk) delta)
    as [expires_on|e]; cbn [rbind fst snd app]; [|reflexivity].
  destruct (Datetime.int_timestamp clk expires_on); reflexivity.
Qed.

(** Every string [chosen_policy] returns is the canonical form of a
    document. *)
Lemma chosen_policy_canonical (clk : Clock) (R : pystr) (P : pyval) (S : Z)
  (log : list event) (policy : pystr) :
  chosen_policy clk R P S = (log, Ok policy) ->
  exists d, policy = Signer._to_json d.
Proof.
  destruct (truthy P) eqn:HP.
  - rewrite chosen_policy_custom by assumption.
    destruct (Signer._validate_custom_policy P); intros H; inversion H.
    now exists P.
  - destruct R as [|c R].
    + rewrite chosen_policy_missing by assumption. discriminate.
    + rewrite chosen_policy_canned by (assumption || discriminate).
      destruct (Datetime.timedelta S) as [delta|]; [|discriminate].
      cbn [rbind].
      destruct (Datetime.add _ delta) as [expires_on|]; [|discriminate].
      cbn [rbind].
      destruct (Datetime.int_timestamp clk expires_on) as [e|];
        [|discriminate].
      cbn [rbind]. intros H. inversion H. eexists. reflexivity.
Qed.

Lemma chosen_policy_log (clk : Clock) (R : pystr) (P : pyval) (S : Z)
  (ev : event) :
  In ev (fst (chosen_policy clk R P S)) ->
  ev = EvNow /\ truthy P = false /\ R <> [].
Proof.
  destruct (truthy P) eqn:HP.
  - rewrite chosen_policy_custom by assumption. intros [].
  - destruct R as [|c R].
    + rewrite chosen_policy_missing by assumption. intros [].
    + rewrite chosen_policy_canned by (assumption || discriminate).
      cbn [fst]. intros [<-|[]]. repeat split. discriminate.
Qed.

Lemma bind_Ok_inv (A B : Type) (m : M A) (k : A -> M B)
  (log : list event) (b : B) :
  bind m k = (log, Ok b) ->
  exists l1 a l2,
    m = (l1, Ok a) /\ k a = (l2, Ok b) /\ log = l1 ++ l2.
Proof.
  destruct m as [l1 [a|e]]; unfold bind; cbn [fst snd].
  - intros H. inversion H. exists l1, a, (fst (k a)).
    repeat split. now destruct (k a).
  - discriminate.
Qed.

Lemma bind_log (A B : Type) (m : M A) (k : A -> M B) (ev : event) :
  In ev (fst (bind m k)) ->
  In ev (fst m) \/ exists a, snd m = Ok a /\ In ev (fst (k a)).
Proof.
  destruct m as [l1 [a|e]]; unfold bind; cbn [fst snd].
  - intros H. apply in_app_or in H as [H|H]; [now left|].
    right. now exists a.
  - now left.
Qed.

(** ** Round trip of the policy cookie *)

(** C2.  In every cookie set that [generate_cookies] returns, the value
    of [CloudFront-Policy], with the substitution undone and then decoded
    from standard base64, is the byte string that was handed to the signing
    primitive, and these bytes read as UTF-8 are the canonical JSON string
    chosen for the call. *)
Theorem policy_cookie_round_trip :
  forall (self : Signer.t) (clk : Clock) (R : pystr) (P : pyval) (S : Z)
         (log : list event) (cookies : list (pystr * pystr)),
    Signer.generate_cookies self clk R P S = (log, Ok cookies) ->
    exists (policy : pystr) (data : pybytes) (value : pystr),
      (exists l, chosen_policy clk R P S = (l, Ok policy))
      /\ (exists d, policy = Signer._to_json d)
      /\ Utf8.encode policy = Ok data
      /\ In (EvSign data pss_sha384 SHA384) log
      /\ assoc (str "CloudFront-Policy") cookies = Some value
      /\ Base64.b64decode (unsanitize_b64 value) = Some data
      /\ Utf8.decode data = Ok policy.
Proof.
  intros self clk R P S log cookies H.
  rewrite generate_cookies_phases in H.
  apply bind_Ok_inv in H as (l1 & policy & l2 & Hc & He & ->).
  destruct (chosen_policy_canonical _ _ _ _ _ _ Hc) as [d Hd].
  assert (Ha : Forall (fun c => c < 128)%N policy)
    by (rewrite Hd; apply to_json_ascii).
  rewrite (encode_cookies_ascii self policy Ha) in He.
  destruct (key_sign (Signer.priv_key self) policy pss_sha384 SHA384)
    as [signature|e]; [|discriminate].
  inversion He; subst l2 cookies.
  exists policy, policy, (Signer._sanitize_b64 (Base64.b64encode policy)).
  split; [now exists l1|].
  split; [now exists d|].
  split; [now apply utf8_encode_ascii|].
  split; [apply in_or_app; right; now left|].
  split; [reflexivity|].
  split; [|now apply utf8_decode_ascii].
  rewrite unsanitize_sanitize by apply b64encode_unsanitized.
  apply b64decode_b64encode.
  eapply Forall_impl; [|exact Ha]. simpl. intros; lia.
Qed.

Lemma policy_cookie_round_trip_witness :
  exists (policy : pystr) (data : pybytes) (value : pystr),
    (exists l, chosen_policy sample_clock sample_resource (PyDict []) 900
               = (l, Ok policy))
    /\ (exists d, policy = Signer._to_json d)
    /\ Utf8.encode policy = Ok data
    /\ In (EvSign data pss_sha384 SHA384)
         (fst (Signer.generate_cookies sample_signer sample_clock
                 sample_resource (PyDict []) 900))
    /\ assoc (str "CloudFront-Policy")
         (match snd (Signer.generate_cookies sample_signer sample_clock
                       sample_resource (PyDict []) 900) with
          | Ok cookies => cookies
          | Raise _ => []
          end) = Some value
    /\ Base64.b64decode (unsanitize_b64 value) = Some data
    /\ Utf8.decode data = Ok policy.
Proof.
  apply (policy_cookie_round_trip sample_signer sample_clock sample_resource
           (PyDict []) 900).
  vm_compute. reflexivity.
Defined.

(** ** What is signed, and how *)

Lemma generate_cookies_sign_event (self : Signer.t) (clk : Clock)
  (R : pystr) (P : pyval) (S : Z)
  (data : pybytes) (padding : Padding) (algorithm : HashAlgorithm) :
  In (EvSign data padding algorithm)
     (fst (Signer.generate_cookies self clk R P S)) ->
  padding = pss_sha384 /\ algorithm = SHA384
  /\ exists l, chosen_policy clk R P S = (l, Ok data).
Proof.
  rewrite generate_cookies_phases. intros H.
  apply bind_log in H as [H | (policy & Hs & H)].
  - apply chosen_policy_log in H as [H _]. discriminate.
  - assert (Hc : chosen_policy clk R P S
                 = (fst (chosen_policy clk R P S), Ok policy))
      by (rewrite <- Hs; apply surjective_pairing).
    destruct (chosen_policy_canonical _ _ _ _ _ _ Hc) as [d Hd].
    rewrite encode_cookies_ascii in H by (rewrite Hd; apply to_json_ascii).
    cbn [fst] in H. destruct H as [H|[]]. inversion H; subst.
    repeat split. eexists. exact Hc.
Qed.

(** C3.  [_sign] encodes the policy string as UTF-8 and calls the
    key's signing primitive once, with PSS padding, MGF1 over SHA-384, the
    maximal salt length and SHA-384 as message hash, whatever the key and the
    string; for a canonical policy string the bytes are its characters.  No
    argument of [generate_cookies] changes the scheme of a signing call. *)
Theorem sign_scheme_fixed :
  (forall (self : Signer.t) (policy : pystr),
      Signer._sign self policy
      = match Utf8.encode policy with
        | Ok data =>
            ([EvSign data (PSS (MGF1 SHA384) MAX_LENGTH) SHA384],
             key_sign (Signer.priv_key self) data
               (PSS (MGF1 SHA384) MAX_LENGTH) SHA384)
        | Raise e => ([], Raise e)
        end)
  /\ (forall (self : Signer.t) (d : pyval),
        Utf8.encode (Signer._to_json d) = Ok (Signer._to_json d)
        /\ Signer._sign self (Signer._to_json d)
           = ([EvSign (Signer._to_json d) (PSS (MGF1 SHA384) MAX_LENGTH) SHA384],
              key_sign (Signer.priv_key self) (Signer._to_json d)
                (PSS (MGF1 SHA384) MAX_LENGTH) SHA384))
  /\ (forall (self : Signer.t) (clk : Clock) (R : pystr) (P : pyval) (S : Z)
             (data : pybytes) (padding : Padding) (algorithm : HashAlgorithm),
        In (EvSign data padding algorithm)
           (fst (Signer.generate_cookies self clk R P S)) ->
        padding = PSS (MGF1 SHA384) MAX_LENGTH /\ algorithm = SHA384).
Proof.
  split; [exact sign_unfold|]. split.
  - intros self d.
    assert (He : Utf8.encode (Signer._to_json d) = Ok (Signer._to_json d))
      by (apply utf8_encode_ascii, to_json_ascii).
    split; [exact He|]. rewrite sign_unfold, He. reflexivity.
  - intros self clk R P S data padding algorithm H.
    apply generate_cookies_sign_event in H as (-> & -> & _). now split.
Qed.

Lemma sign_scheme_fixed_witness :
  In (EvSign (Signer._make_canned_policy sample_resource 1700000900)
        (PSS (MGF1 SHA384) MAX_LENGTH) SHA384)
     (fst (Signer.generate_cookies sample_signer sample_clock
             sample_resource (PyDict []) 900))
  /\ PSS (MGF1 SHA384) MAX_LENGTH = PSS (MGF1 SHA384) MAX_LENGTH
  /\ SHA384 = SHA384.
Proof.
  assert (H : In (EvSign (Signer._make_canned_policy sample_resource 1700000900)
                    (PSS (MGF1 SHA384) MAX_LENGTH) SHA384)
                 (fst (Signer.generate_cookies sample_signer sample_clock
                         sample_resource (PyDict []) 900))).
  { vm_compute. right. left. reflexivity. }
  split; [exact H|].
  exact (proj2 (proj2 sign_scheme_fixed) _ _ _ _ _ _ _ _ H).
Defined.

(** ** Canned policies *)

(** On the canned path whatever reaches the signing primitive is the
    canonical form of the canned document: one statement, holding the
    resource and a condition with the single key [DateLessThan], whose
    [AWS:EpochTime] is the integer that [int(expires_on.timestamp())] gave
    for the clock reading plus [SecondsBeforeExpires]. *)
Lemma canned_path_signs_canned_document (self : Signer.t) (clk : Clock)
  (R : pystr) (P : pyval) (S : Z)
  (data : pybytes) (padding : Padding) (algorithm : HashAlgorithm) :
  truthy P = false ->
  In (EvSign data padding algorithm)
     (fst (Signer.generate_cookies self clk R P S)) ->
  exists expiration_date,
    Datetime.int_timestamp clk
      (epoch_us clk + utc_offset_us clk + S * 1000000)
    = Ok expiration_date
    /\ data
       = Signer._to_json
           (PyDict
              [ (str "Statement",
                 PyList
                   [ PyDict
                       [ (str "Resource", PyStr R);
                         (str "Condition",
                          PyDict
                            [ (str "DateLessThan",
                               PyDict [ (str "AWS:EpochTime",
                                         PyInt expiration_date) ]) ]) ] ]) ]).
Proof.
  intros HP H.
  apply generate_cookies_sign_event in H as (_ & _ & l & Hc).
  destruct R as [|c R].
  - rewrite chosen_policy_missing in Hc by assumption. discriminate.
  - rewrite chosen_policy_canned in Hc by (assumption || discriminate).
    unfold Datetime.timedelta, Datetime.add in Hc.
    destruct (Z.abs (S / 86400) >? 999999999)%Z; [discriminate|].
    cbn [rbind] in Hc. destruct (_ || _)%bool; [discriminate|].
    cbn [rbind] in Hc.
    destruct (Datetime.int_timestamp clk _) as [e|] eqn:He; [|discriminate].
    cbn [rbind] in Hc. inversion Hc as [[Hl Hp]]. exists e.
    split; reflexivity.
Qed.

(** C6, at 02:10 local time, ten minutes after the end of summer
    time, with the default delay of 900 seconds: the clock reads 1698541800
    and the expiry asked for is 1698542700, but the policy that is signed
    expires at 1698539100, an hour before that and 45 minutes before the
    call.  The sum [datetime.now() + timedelta] is the naive time 02:25, which
    [timestamp] reads as its first occurrence, in summer time. *)
Theorem canned_expiry_after_fall_back :
  (epoch_us clock_after_fall_back / 1000000 + 900 = 1698542700)%Z
  /\ Datetime.int_timestamp clock_after_fall_back
       (epoch_us clock_after_fall_back + utc_offset_us clock_after_fall_back
        + 900 * 1000000)
     = Ok 1698539100%Z
  /\ fst (Signer.generate_cookies sample_signer clock_after_fall_back
            sample_resource (PyDict []) 900)
     = [EvNow;
        EvSign (Signer._to_json
                  (Signer.canned_policy_document sample_resource 1698539100))
          pss_sha384 SHA384]
  /\ (1698539100 < epoch_us clock_after_fall_back / 1000000)%Z.
Proof. repeat split; vm_compute; reflexivity. Qed.

(** ** Choice between the custom and the canned policy *)

(** C7.  A truthy [Policy] is validated and its canonical form is what is
    signed and encoded: the result does not depend on [Resource],
    [SecondsBeforeExpires] or the clock, which is not read.  With a falsy
    [Policy] and an empty [Resource] the call raises [ValueError].  The clock
    is read, and the canned policy built, exactly when [Policy] is falsy and
    [Resource] is not empty. *)
Theorem policy_selection :
  forall (self : Signer.t) (clk : Clock) (R : pystr) (P : pyval) (S : Z),
    (truthy P = true ->
       (forall clk' R' S',
           Signer.generate_cookies self clk R P S
           = Signer.generate_cookies self clk' R' P S')
       /\ (forall e, Signer._validate_custom_policy P = Raise e ->
             Signer.generate_cookies self clk R P S = ([], Raise e))
       /\ (Signer._validate_custom_policy P = Ok tt ->
             Signer.generate_cookies self clk R P S
             = encode_cookies self (Signer._to_json P)))
    /\ (truthy P = false -> R = [] ->
          Signer.generate_cookies self clk R P S
          = ([], Raise (Raised ValueError
                          [Lit (str "must provide a resource URL")])))
    /\ (truthy P = false -> R <> [] ->
          Signer.generate_cookies self clk R P S
          = bind
              (emit EvNow
                 (rbind (Datetime.timedelta S) (fun delta =>
                  rbind (Datetime.add (epoch_us clk + utc_offset_us clk) delta)
                    (fun expires_on =>
                  rbind (Datetime.int_timestamp clk expires_on)
                    (fun expiration_date =>
                       Ok (Signer._make_canned_policy R expiration_date))))))
              (encode_cookies self))
    /\ (In EvNow (fst (Signer.generate_cookies self clk R P S))
        <-> truthy P = false /\ R <> []).
Proof.
  intros self clk R P S.
  assert (Hcustom : truthy P = true -> forall clk' R' S',
             Signer.generate_cookies self clk' R' P S'
             = bind ([], match Signer._validate_custom_policy P with
                         | Ok _ => Ok (Signer._to_json P)
                         | Raise e => Raise e
                         end) (encode_cookies self)).
  { intros HP clk' R' S'.
    now rewrite generate_cookies_phases, chosen_policy_custom. }
  split; [|split; [|split]].
  - intros HP. split; [|split].
    + intros clk' R' S'. now rewrite !Hcustom.
    + intros e He. rewrite Hcustom, He by assumption. reflexivity.
    + intros Hv. rewrite Hcustom, Hv by assumption.
      unfold bind. cbn [fst snd app]. now destruct (encode_cookies _ _).
  - intros HP ->.
    now rewrite generate_cookies_phases, chosen_policy_missing.
  - intros HP HR.
    now rewrite generate_cookies_phases, chosen_policy_canned.
  - split.
    + intros H. rewrite generate_cookies_phases in H.
      apply bind_log in H as [H | (policy & Hs & H)].
      * now apply chosen_policy_log in H.
      * assert (Hc : chosen_policy clk R P S
                     = (fst (chosen_policy clk R P S), Ok policy))
          by (rewrite <- Hs; apply surjective_pairing).
        destruct (chosen_policy_canonical _ _ _ _ _ _ Hc) as [d Hd].
        rewrite encode_cookies_ascii in H
          by (rewrite Hd; apply to_json_ascii).
        cbn [fst] in H. destruct H as [H|[]]. discriminate.
    + intros [HP HR].
      rewrite generate_cookies_phases, chosen_policy_canned by assumption.
      unfold bind. cbn [fst snd].
      destruct (rbind _ _); cbn [fst]; [apply in_or_app; left|];
        left; reflexivity.
Qed.

Lemma policy_selection_witness :
  Signer.generate_cookies sample_signer sample_clock sample_resource
    sample_custom_policy 900
  = encode_cookies sample_signer (Signer._to_json sample_custom_policy).
Proof.
  apply (proj1 (policy_selection sample_signer sample_clock sample_resource
                  sample_custom_policy 900) eq_refl).
  vm_compute. reflexivity.
Defined.

(** ** The cookie set *)

(** C9.  A mapping returned by [generate_cookies] has three entries, under
    [CloudFront-Policy], [CloudFront-Signature] and [CloudFront-Key-Pair-Id],
    and the last one is the key identifier with which the signer was
    constructed, unchanged. *)
Theorem cookies_three_entries :
  forall (env : Env) (cloudfront_key_id priv_key_file : pystr)
         (log0 : list event) (self : Signer.t)
         (clk : Clock) (R : pystr) (P : pyval) (S : Z)
         (log : list event) (cookies : list (pystr * pystr)),
    Signer.__init__ env cloudfront_key_id priv_key_file = (log0, Ok self) ->
    Signer.generate_cookies self clk R P S = (log, Ok cookies) ->
    List.length cookies = 3%nat
    /\ map fst cookies
       = [str "CloudFront-Policy"; str "CloudFront-Signature";
          str "CloudFront-Key-Pair-Id"]
    /\ NoDup (map fst cookies)
    /\ assoc (str "CloudFront-Key-Pair-Id") cookies = Some cloudfront_key_id.
Proof.
  intros env kid path log0 self clk R P S log cookies Hinit H.
  assert (Hkid : Signer.cloudfront_key_id self = kid).
  { unfold Signer.__init__ in Hinit.
    destruct (negb _); [discriminate|].
    unfold bind, emit, ret, raise in Hinit. cbn [fst snd] in Hinit.
    destruct (fs_exists env path); [|discriminate].
    cbn [fst snd] in Hinit.
    destruct (fs_read env path) as [kb|]; [|discriminate].
    cbn [fst snd] in Hinit.
    destruct (load_pem_private_key env kb) as [key|]; [|discriminate].
    cbn [fst snd] in Hinit. inversion Hinit. reflexivity. }
  rewrite generate_cookies_phases in H.
  apply bind_Ok_inv in H as (l1 & policy & l2 & Hc & He & ->).
  destruct (chosen_policy_canonical _ _ _ _ _ _ Hc) as [d Hd].
  rewrite encode_cookies_ascii in He by (rewrite Hd; apply to_json_ascii).
  destruct (key_sign _ _ _ _) as [signature|]; [|discriminate].
  inversion He; subst cookies. cbn [map fst List.length].
  split; [reflexivity|]. split; [reflexivity|]. split.
  - repeat constructor; cbn [In]; intros Hin;
      repeat destruct Hin as [Hin|Hin]; try discriminate; assumption.
  - cbn [assoc]. rewrite Hkid. reflexivity.
Qed.

Lemma cookies_three_entries_witness :
  exists cookies,
    snd (Signer.generate_cookies sample_signer sample_clock sample_resource
           (PyDict []) 900) = Ok cookies
    /\ List.length cookies = 3%nat
    /\ map fst cookies
       = [str "CloudFront-Policy"; str "CloudFront-Signature";
          str "CloudFront-Key-Pair-Id"]
    /\ NoDup (map fst cookies)
    /\ assoc (str "CloudFront-Key-Pair-Id") cookies = Some sample_key_id.
Proof.
  eexists. split; [vm_compute; reflexivity|].
  eapply (cookies_three_entries sample_env sample_key_id (str "key.pem")
            _ sample_signer sample_clock sample_resource (PyDict []) 900).
  - vm_compute. reflexivity.
  - vm_compute. reflexivity.
Defined.

(** ** The validator *)

Lemma getitem_Ok_dict (v : pyval) (k : pystr) (x : pyval) :
  getitem v k = Ok x ->
  exists items, v = PyDict items /\ lookup k items = Some x /\ items <> [].
Proof.
  destruct v as [| | | | |items]; try discriminate.
  cbn [getitem]. destruct (lookup k items) eqn:Hl; [|discriminate].
  intros H. inversion H; subst. exists items.
  split; [reflexivity|]. split; [exact Hl|].
  intros ->. discriminate.
Qed.

Lemma condition_and_resource_Ok (statement conditions resource : pyval) :
  getitem statement (str "Condition") = Ok conditions ->
  getitem statement (str "Resource") = Ok resource ->
  Signer.condition_and_resource statement = Ok (conditions, resource).
Proof.
  intros Hc Hr. unfold Signer.condition_and_resource.
  rewrite Hc. cbn [rbind]. rewrite Hr. reflexivity.
Qed.

(** C10.  A policy whose examined statement has a string [Resource] and
    a [Condition] that is a mapping without keys passes validation. *)
Theorem empty_condition_accepted :
  forall (policy statements statement : pyval) (resource : pystr),
    getitem policy (str "Statement") = Ok statements ->
    examined_statement statements = Some statement ->
    getitem statement (str "Resource") = Ok (PyStr resource) ->
    getitem statement (str "Condition") = Ok (PyDict []) ->
    Signer._validate_custom_policy policy = Ok tt.
Proof.
  intros policy statements statement resource Hs Hex Hr Hc.
  unfold Signer._validate_custom_policy. rewrite Hs.
  cbn [Signer.except_KeyError rbind].
  destruct (getitem_Ok_dict _ _ _ Hr) as (items & -> & _ & Hne).
  destruct statements as [| | | | [|st l] |sitems]; try discriminate.
  - cbn [examined_statement] in Hex. inversion Hex; subst st.
    cbn [truthy type getitem0 rbind].
    rewrite (condition_and_resource_Ok _ _ _ Hc Hr). reflexivity.
  - cbn [examined_statement] in Hex. inversion Hex; subst sitems.
    assert (Ht : truthy (PyDict items) = true)
      by (destruct items; [congruence | reflexivity]).
    rewrite Ht. cbn [type].
    rewrite (condition_and_resource_Ok _ _ _ Hc Hr). reflexivity.
Qed.

Lemma empty_condition_accepted_witness :
  Signer._validate_custom_policy policy_no_condition = Ok tt.
Proof.
  apply (empty_condition_accepted policy_no_condition
           (PyList [ PyDict [ (str "Resource", PyStr (str "https://x/y"));
                              (str "Condition", PyDict []) ] ])
           (PyDict [ (str "Resource", PyStr (str "https://x/y"));
                     (str "Condition", PyDict []) ])
           (str "https://x/y")); reflexivity.
Defined.

(** The check on [AWS:EpochTime] rejects every value that is not an [int]
    and names the type found. *)
Lemma epoch_time_type_checked (value : pyval) :
  type value <> TInt ->
  Signer.check_subkey_value (str "AWS:EpochTime") value
  = Raise (Raised InvalidCustomPolicy
             [Lit (str "AWS:EpochTime value must be of type 'int'");
              Lit (str ", not "); FmtType (type value)]).
Proof.
  intros Ht. unfold Signer.check_subkey_value.
  rewrite str_eqb_refl. destruct (type value); try reflexivity. congruence.
Qed.

(** The check on [AWS:SourceIp] never fires: line 136 compares the sub-key
    with [IpAddress], the name of the condition. *)
Lemma source_ip_type_unchecked (value : pyval) :
  Signer.check_subkey_value (str "AWS:SourceIp") value = Ok tt.
Proof. reflexivity. Qed.

(** X18.  A date condition at the head of [Condition] whose
    [AWS:EpochTime] is not an [int] makes the validator raise
    [InvalidCustomPolicy], with the type expected and the type found. *)
Lemma epoch_time_rejected (key : pystr) (value resource : pyval)
  (more : list (pystr * pyval)) :
  key = str "DateLessThan" \/ key = str "DateGreaterThan" ->
  type value <> TInt ->
  Signer._validate_custom_policy
    (PyDict
       [ (str "Statement",
          PyDict
            [ (str "Resource", resource);
              (str "Condition",
               PyDict ((key, PyDict [ (str "AWS:EpochTime", value) ]) :: more))
            ]) ])
  = Raise (Raised InvalidCustomPolicy
             [Lit (str "AWS:EpochTime value must be of type 'int'");
              Lit (str ", not "); FmtType (type value)]).
Proof.
  intros Hkey Ht.
  assert (Hc : Signer.check_condition
                 (PyDict ((key, PyDict [ (str "AWS:EpochTime", value) ]) :: more))
                 (PyStr key)
               = Raise (Raised InvalidCustomPolicy
                          [Lit (str "AWS:EpochTime value must be of type 'int'");
                           Lit (str ", not "); FmtType (type value)])).
  { unfold Signer.check_condition, getitem. cbn [lookup].
    rewrite str_eqb_refl. cbn [rbind map fst for_each].
    destruct value; try (exfalso; apply Ht; reflexivity);
      destruct Hkey as [-> | ->]; vm_compute; reflexivity. }
  unfold Signer._validate_custom_policy.
  change (getitem _ (str "Statement"))
    with (Ok (PyDict
                [ (str "Resource", resource);
                  (str "Condition",
                   PyDict ((key, PyDict [ (str "AWS:EpochTime", value) ])
                           :: more)) ])).
  cbn [Signer.except_KeyError rbind truthy type].
  change (Signer.condition_and_resource _)
    with (Ok (PyDict ((key, PyDict [ (str "AWS:EpochTime", value) ]) :: more),
              resource)).
  cbn [rbind iter map fst for_each]. rewrite Hc. reflexivity.
Qed.

(** C4, at the policy whose [AWS:SourceIp] is the integer 42: the
    validator returns normally. *)
Theorem source_ip_int_accepted :
  Signer._validate_custom_policy policy_source_ip_int = Ok tt.
Proof. vm_compute. reflexivity. Qed.

(** C5, at [{"Statement": 5}] and [{"Statement": [5]}]: the first is
    accepted, the second ends in a [TypeError] of the interpreter. *)
Theorem statement_shape_unchecked :
  Signer._validate_custom_policy policy_statement_int = Ok tt
  /\ Signer._validate_custom_policy policy_statement_list_int
     = Raise (Builtin TypeError).
Proof. split; vm_compute; reflexivity. Qed.

(** ** The pattern of key identifiers *)

Lemma in_ranges_hex (c : N) :
  Re.in_ranges Signer.hex_ranges c = is_lower_hex c.
Proof.
  unfold Re.in_ranges, Signer.hex_ranges, is_lower_hex.
  cbn [existsb fst snd]. now rewrite orb_false_r.
Qed.

Lemma hex_is_word (c : N) : is_lower_hex c = true -> Re.is_word c = true.
Proof.
  unfold is_lower_hex, Re.is_word, Re.in_ranges. cbn [existsb fst snd].
  intros H.
  destruct (N.leb_spec 48 c), (N.leb_spec c 57), (N.leb_spec 97 c),
    (N.leb_spec c 102), (N.leb_spec 65 c), (N.leb_spec c 90),
    (N.leb_spec c 122), (N.leb_spec 95 c), (N.leb_spec c 95);
    cbn in H |- *; try reflexivity; try discriminate; lia.
Qed.

Lemma class_n_spec (n : nat) :
  forall (p : option N) (s : pystr),
    match Re.class_n Signer.hex_ranges n (p, s) with
    | Some (p', r) =>
        hex_run n s = Some r
        /\ (n = 0%nat -> p' = p)
        /\ (n <> 0%nat -> Re.is_word_opt p' = true)
    | None => hex_run n s = None
    end.
Proof.
  induction n as [|n IH]; intros p s.
  - cbn. repeat split. congruence.
  - cbn [Re.class_n hex_run snd]. destruct s as [|c rest]; [reflexivity|].
    rewrite in_ranges_hex. destruct (is_lower_hex c) eqn:Hc; [|reflexivity].
    specialize (IH (Some c) rest). revert IH.
    generalize (Re.class_n Signer.hex_ranges n (Some c, rest)).
    intros [[p' r]|] IH; [|exact IH].
    destruct IH as (Hr & H0 & Hn). split; [exact Hr|].
    split; [discriminate|]. intros _.
    destruct n as [|n]; [|now apply Hn].
    rewrite (H0 eq_refl). cbn. now apply hex_is_word.
Qed.

Lemma run_separator (rest : list Re.item) (p : option N) (s : pystr) :
  Re.is_word_opt p = true ->
  Re.run (Re.WordBoundary :: Re.Char 45 :: rest) (p, s)
  = match s with
    | c :: r => (c =? 45)%N && Re.run rest (Some c, r)
    | [] => false
    end.
Proof.
  intros Hp. cbn [Re.run Re.step fst snd]. rewrite Hp.
  destruct s as [|c r]; [reflexivity|]. cbn [hd_error Re.is_word_opt].
  destruct (N.eqb_spec c 45) as [->|Hc].
  - reflexivity.
  - apply N.eqb_neq in Hc. cbn [andb].
    destruct (Re.is_word c); cbn [xorb]; [reflexivity|].
    cbn [Re.run Re.step snd]. now rewrite Hc.
Qed.

Lemma run_groups (groups : list nat) :
  groups <> [] -> Forall (fun n => n <> 0%nat) groups ->
  forall (p : option N) (s : pystr),
    Re.run (groups_pattern groups) (p, s) = groups_nl groups s.
Proof.
  induction groups as [|n more IH]; [congruence|].
  intros _ Hpos p s. inversion Hpos as [|? ? Hn Hmore]; subst.
  pose proof (class_n_spec n p s) as Hc. revert Hc.
  destruct more as [|m more].
  - cbn [groups_pattern groups_nl Re.run Re.step].
    generalize (Re.class_n Signer.hex_ranges n (p, s)).
    intros [[p' r]|] Hc.
    + destruct Hc as (-> & _). cbn [snd].
      destruct r as [|c [|c' r]]; try reflexivity.
      now destruct (c =? 10)%N.
    + now rewrite Hc.
  - change (groups_pattern (n :: m :: more))
      with (Re.Class Signer.hex_ranges n :: Re.WordBoundary :: Re.Char 45
            :: groups_pattern (m :: more)).
    change (groups_nl (n :: m :: more) s)
      with (match hex_run n s with
            | Some (c :: rest) => (c =? 45)%N && groups_nl (m :: more) rest
            | _ => false
            end).
    change (Re.run (Re.Class Signer.hex_ranges n :: Re.WordBoundary
                    :: Re.Char 45 :: groups_pattern (m :: more)) (p, s))
      with (match Re.class_n Signer.hex_ranges n (p, s) with
            | Some p' =>
                Re.run (Re.WordBoundary :: Re.Char 45
                        :: groups_pattern (m :: more)) p'
            | None => false
            end).
    generalize (Re.class_n Signer.hex_ranges n (p, s)).
    intros [[p' r]|] Hc.
    + destruct Hc as (-> & _ & Hw).
      rewrite run_separator by now apply Hw.
      destruct r as [|c r]; [reflexivity|].
      now rewrite IH by (assumption || discriminate).
    + now rewrite Hc.
Qed.

Lemma match_groups_nl (s : pystr) :
  Re.match_ Signer.key_id_pattern s = groups_nl [8; 4; 4; 4; 12]%nat s.
Proof.
  unfold Re.match_.
  change Signer.key_id_pattern
    with (Re.Bol :: groups_pattern [8; 4; 4; 4; 12]%nat).
  cbn [Re.run Re.step fst].
  apply run_groups; [discriminate|]. repeat constructor; discriminate.
Qed.

Lemma hex_run_snoc (n : nat) :
  forall (u pre : pystr) (x : N),
    hex_run n u = Some pre -> hex_run n (u ++ [x]) = Some (pre ++ [x]).
Proof.
  induction n as [|n IH]; intros u pre x H.
  - cbn [hex_run] in *. inversion H. reflexivity.
  - destruct u as [|c u]; [discriminate|].
    rewrite <- app_comm_cons. cbn [hex_run] in *.
    destruct (is_lower_hex c); [now apply IH | discriminate].
Qed.

Lemma hex_run_snoc_inv (n : nat) :
  forall (s pre : pystr) (x : N),
    hex_run n s = Some (pre ++ [x]) ->
    exists u, s = u ++ [x] /\ hex_run n u = Some pre.
Proof.
  induction n as [|n IH]; intros s pre x; cbn [hex_run].
  - intros H. inversion H. now exists pre.
  - destruct s as [|c s]; [discriminate|].
    destruct (is_lower_hex c) eqn:Hc; [|discriminate].
    intros H. destruct (IH _ _ _ H) as (u & -> & Hu).
    exists (c :: u). split; [reflexivity|]. cbn [hex_run]. now rewrite Hc.
Qed.

Lemma groups_nl_spec (groups : list nat) :
  forall s : pystr,
    groups_nl groups s = true
    <-> is_groups groups s = true
        \/ exists u, s = u ++ [10%N] /\ is_groups groups u = true.
Proof.
  induction groups as [|n more IH]; intros s.
  - cbn. split; [discriminate|]. intros [H|(u & _ & H)]; discriminate.
  - destruct more as [|m more].
    + cbn [groups_nl is_groups]. split.
      * destruct (hex_run n s) as [[|c [|c' r]]|] eqn:Hr; try discriminate.
        -- now left.
        -- intros Hc. apply N.eqb_eq in Hc. subst c. right.
           destruct (hex_run_snoc_inv n s [] 10%N Hr) as (u & -> & Hu).
           exists u. now rewrite Hu.
      * intros [H|(u & -> & H)].
        -- now destruct (hex_run n s) as [[|c [|c' r]]|].
        -- destruct (hex_run n u) as [[|c r]|] eqn:Hu; try discriminate.
           now rewrite (hex_run_snoc n u [] 10%N Hu).
    + change (groups_nl (n :: m :: more) s)
        with (match hex_run n s with
              | Some (c :: rest) => (c =? 45)%N && groups_nl (m :: more) rest
              | _ => false
              end).
      assert (Hg : forall t, is_groups (n :: m :: more) t
                = match hex_run n t with
                  | Some (c :: rest) =>
                      (c =? 45)%N && is_groups (m :: more) rest
                  | _ => false
                  end) by reflexivity.
      rewrite Hg. split.
      * destruct (hex_run n s) as [[|c r]|] eqn:Hr; try discriminate.
        rewrite andb_true_iff, IH. intros [Hc [H|(u & -> & H)]].
        -- left. now rewrite Hc.
        -- right.
           destruct (hex_run_snoc_inv n s (c :: u) 10%N Hr) as (v & -> & Hv).
           exists v. split; [reflexivity|]. now rewrite Hg, Hv, Hc.
      * intros [H|(u & -> & H)].
        -- destruct (hex_run n s) as [[|c r]|]; try discriminate.
           apply andb_true_iff in H as [Hc H].
           rewrite Hc. cbn [andb]. apply IH. now left.
        -- rewrite Hg in H.
           destruct (hex_run n u) as [[|c r]|] eqn:Hu; try discriminate.
           apply andb_true_iff in H as [Hc H].
           rewrite (hex_run_snoc n u (c :: r) 10%N Hu), <- app_comm_cons.
           rewrite Hc. cbn [andb]. apply IH. right. now exists r.
Qed.

(** The pattern lets through the UUIDs in lowercase hexadecimal digits, and
    the same followed by one newline, and nothing else. *)
Lemma key_id_pattern_accepts (s : pystr) :
  Re.match_ Signer.key_id_pattern s = true
  <-> is_uuid s = true \/ exists u, s = u ++ [10%N] /\ is_uuid u = true.
Proof. rewrite match_groups_nl. apply groups_nl_spec. Qed.

(** ** Construction *)

(** A key identifier the pattern refuses is rejected before the file system
    is touched. *)
Lemma init_rejects (env : Env) (cloudfront_key_id priv_key_file : pystr) :
  Re.match_ Signer.key_id_pattern cloudfront_key_id = false ->
  Signer.__init__ env cloudfront_key_id priv_key_file
  = ([], Raise invalid_key_id).
Proof. intros H. unfold Signer.__init__. now rewrite H. Qed.

(** A key identifier the pattern lets through, with a key file that exists,
    can be read and parses, gives a signer that holds the identifier. *)
Lemma init_accepts (env : Env) (cloudfront_key_id priv_key_file : pystr)
  (key_bytes : pybytes) (key : PrivateKey) :
  Re.match_ Signer.key_id_pattern cloudfront_key_id = true ->
  fs_exists env priv_key_file = true ->
  fs_read env priv_key_file = Ok key_bytes ->
  load_pem_private_key env key_bytes = Ok key ->
  Signer.__init__ env cloudfront_key_id priv_key_file
  = ([EvExists priv_key_file; EvRead priv_key_file; EvLoadPem key_bytes],
     Ok {| Signer.cloudfront_key_id := cloudfront_key_id;
           Signer.priv_key := key |}).
Proof.
  intros Hm He Hr Hl. unfold Signer.__init__. rewrite Hm. cbn [negb].
  unfold bind, emit, ret. cbn [fst snd]. rewrite He. cbn [fst snd].
  rewrite Hr. cbn [fst snd]. rewrite Hl. reflexivity.
Qed.

(** X19.  Construction succeeds for every UUID in lowercase hexadecimal
    digits, and fails with [InvalidCloudFrontKeyId], before any access to the
    file system, for every string that is neither such a UUID nor such a UUID
    followed by one newline. *)
Lemma key_id_checked (env : Env) (cloudfront_key_id priv_key_file : pystr) :
  (is_uuid cloudfront_key_id = true ->
   forall key_bytes key,
     fs_exists env priv_key_file = true ->
     fs_read env priv_key_file = Ok key_bytes ->
     load_pem_private_key env key_bytes = Ok key ->
     Signer.__init__ env cloudfront_key_id priv_key_file
     = ([EvExists priv_key_file; EvRead priv_key_file; EvLoadPem key_bytes],
        Ok {| Signer.cloudfront_key_id := cloudfront_key_id;
              Signer.priv_key := key |}))
  /\ (is_uuid cloudfront_key_id = false ->
      (forall u, cloudfront_key_id = u ++ [10%N] -> is_uuid u = false) ->
      Signer.__init__ env cloudfront_key_id priv_key_file
      = ([], Raise invalid_key_id)).
Proof.
  split.
  - intros Hu key_bytes key. apply init_accepts.
    apply key_id_pattern_accepts. now left.
  - intros Hu Hnl. apply init_rejects.
    destruct (Re.match_ Signer.key_id_pattern cloudfront_key_id) eqn:Hm;
      [|reflexivity].
    apply key_id_pattern_accepts in Hm as [Hm|(u & Heq & Hm)].
    + congruence.
    + rewrite (Hnl u Heq) in Hm. discriminate.
Qed.

(** C8, at a UUID followed by a newline: the string is not of the
    format 8-4-4-4-12, the pattern lets it through, and construction succeeds
    and keeps the newline in the key identifier. *)
Theorem key_id_with_newline_accepted :
  is_uuid key_id_with_newline = false
  /\ Re.match_ Signer.key_id_pattern key_id_with_newline = true
  /\ Signer.__init__ sample_env key_id_with_newline (str "key.pem")
     = ([EvExists (str "key.pem"); EvRead (str "key.pem"); EvLoadPem []],
        Ok {| Signer.cloudfront_key_id := key_id_with_newline;
              Signer.priv_key := sample_key |}).
Proof. repeat split; vm_compute; reflexivity. Qed.

(** ** Loops and lookups *)

Lemma for_each_Ok (A : Type) (body : A -> result unit) (xs : list A) :
  for_each body xs = Ok tt <-> Forall (fun x => body x = Ok tt) xs.
Proof.
  induction xs as [|x xs IH]; cbn [for_each].
  - split; [constructor | reflexivity].
  - split.
    + destruct (body x) as [[]|e] eqn:Hx; [|discriminate].
      cbn [rbind]. intros H. constructor; [exact Hx | now apply IH].
    + intros H. inversion H as [|? ? Hx Hxs]; subst.
      rewrite Hx. cbn [rbind]. now apply IH.
Qed.

Lemma for_each_Raise (A : Type) (body : A -> result unit) (xs : list A)
  (e : exn) :
  for_each body xs = Raise e -> exists x, In x xs /\ body x = Raise e.
Proof.
  induction xs as [|x xs IH]; cbn [for_each]; [discriminate|].
  destruct (body x) as [[]|e'] eqn:Hx; cbn [rbind].
  - intros H. destruct (IH H) as (y & Hy & Hb). exists y. split; [now right|].
    exact Hb.
  - intros H. inversion H; subst. exists x. split; [now left | exact Hx].
Qed.

Lemma for_each_first_error (A : Type) (body : A -> result unit)
  (pre post : list A) (x : A) (e : exn) :
  Forall (fun y => body y = Ok tt) pre -> body x = Raise e ->
  for_each body (pre ++ x :: post) = Raise e.
Proof.
  intros Hpre Hx. induction Hpre as [|y pre Hy _ IH].
  - rewrite app_nil_l. cbn [for_each]. now rewrite Hx.
  - rewrite <- app_comm_cons. cbn [for_each]. rewrite Hy. exact IH.
Qed.

Lemma lookup_In (k : pystr) (items : list (pystr * pyval)) :
  In k (map fst items) -> exists v, lookup k items = Some v.
Proof.
  induction items as [|[k' v'] items IH]; [intros []|].
  cbn [map fst In lookup]. intros [Hk|Hk].
  - subst k'. rewrite str_eqb_refl. now exists v'.
  - destruct (str_eqb k k'); [now exists v' | now apply IH].
Qed.

Lemma lookup_NoDup (k : pystr) (v : pyval) (items : list (pystr * pyval)) :
  NoDup (map fst items) -> In (k, v) items -> lookup k items = Some v.
Proof.
  induction items as [|[k' v'] items IH]; [intros _ []|].
  cbn [map fst lookup]. intros Hnd Hin. inversion Hnd as [|? ? Hk' Hnd']; subst.
  destruct Hin as [Heq|Hin].
  - inversion Heq; subst. now rewrite str_eqb_refl.
  - destruct (str_eqb k k') eqn:Hkk.
    + apply str_eqb_eq in Hkk. subst k'. exfalso. apply Hk'.
      change k with (fst (k, v)). now apply in_map.
    + now apply IH.
Qed.

Lemma getitem_errors (v : pyval) (k : pystr) (e : exn) :
  getitem v k = Raise e -> e = Builtin KeyError \/ e = Builtin TypeError.
Proof.
  destruct v as [| | | | |items]; cbn [getitem];
    try (intros H; inversion H; now right).
  destruct (lookup k items); [discriminate|].
  intros H. inversion H. now left.
Qed.

(** ** The validator, statement by statement *)

Lemma allowed_key_cases (k : pystr) :
  existsb (str_eqb k) Signer.allowed_condition_keys
  = is_date_key k || str_eqb k (str "IpAddress").
Proof.
  unfold Signer.allowed_condition_keys, is_date_key. cbn [existsb].
  now rewrite orb_false_r, orb_assoc.
Qed.

Lemma subkey_of_date (k : pystr) :
  is_date_key k = true ->
  Signer.subkey_of k Signer.allowed_condition_key_subkeys
  = Ok (str "AWS:EpochTime").
Proof.
  unfold is_date_key, Signer.allowed_condition_key_subkeys.
  cbn [Signer.subkey_of]. intros H.
  destruct (str_eqb k (str "DateLessThan")); [reflexivity|].
  cbn [orb] in H. now rewrite H.
Qed.

Lemma subkey_of_ip (k : pystr) :
  is_date_key k = false -> str_eqb k (str "IpAddress") = true ->
  Signer.subkey_of k Signer.allowed_condition_key_subkeys
  = Ok (str "AWS:SourceIp").
Proof.
  unfold is_date_key, Signer.allowed_condition_key_subkeys.
  cbn [Signer.subkey_of]. intros H Hip.
  apply orb_false_iff in H as [-> ->]. now rewrite Hip.
Qed.

(** The validator on a policy whose examined statement has both keys: the
    loop over the conditions, then the check of the resource. *)
Lemma validate_examined (policy statements statement conditions resource : pyval) :
  getitem policy (str "Statement") = Ok statements ->
  examined_statement statements = Some statement ->
  getitem statement (str "Condition") = Ok conditions ->
  getitem statement (str "Resource") = Ok resource ->
  Signer._validate_custom_policy policy
  = rbind (iter conditions) (fun keys =>
    rbind (for_each (Signer.check_condition conditions) keys) (fun _ =>
      if negb (pytype_eqb (type resource) TStr)
      then Raise (resource_type_error (type resource))
      else Ok tt)).
Proof.
  intros Hs Hex Hc Hr.
  unfold Signer._validate_custom_policy. rewrite Hs.
  cbn [Signer.except_KeyError rbind].
  destruct (getitem_Ok_dict _ _ _ Hr) as (items & -> & _ & Hne).
  assert (Ht : truthy (PyDict items) = true)
    by (destruct items; [congruence | reflexivity]).
  destruct statements as [| | | | [|st l] |sitems]; try discriminate;
    cbn [examined_statement] in Hex; inversion Hex; subst.
  - cbn [truthy type getitem0 rbind].
    rewrite (condition_and_resource_Ok _ _ _ Hc Hr). reflexivity.
  - rewrite Ht. cbn [type].
    rewrite (condition_and_resource_Ok _ _ _ Hc Hr). reflexivity.
Qed.

Lemma pytype_eqb_eq (a b : pytype) : pytype_eqb a b = true <-> a = b.
Proof. destruct a, b; cbn; split; congruence. Qed.

Lemma loop_by_entries (A B : Type) (f : A -> B) (body : B -> result unit)
  (P : A -> bool) (items : list A) :
  (forall a, In a items ->
     (P a = true -> body (f a) = Ok tt)
     /\ (P a = false -> is_invalid_policy (body (f a)))) ->
  (forallb P items = true -> for_each body (map f items) = Ok tt)
  /\ (forallb P items = false ->
      is_invalid_policy (for_each body (map f items))).
Proof.
  induction items as [|a items IH]; intros H; cbn [forallb map for_each].
  - split; [reflexivity | discriminate].
  - destruct (H a (or_introl eq_refl)) as [Ht Hf].
    destruct (IH (fun b Hb => H b (or_intror Hb))) as [IHt IHf].
    destruct (P a); cbn [andb].
    + rewrite (Ht eq_refl). cbn [rbind]. now split.
    + split; [discriminate|]. intros _.
      destruct (Hf eq_refl) as [m ->]. now exists m.
Qed.

Lemma date_key_not_ip (k : pystr) :
  is_date_key k = true -> str_eqb k (str "IpAddress") = false.
Proof.
  unfold is_date_key. intros H. apply orb_true_iff in H as [H|H];
    apply str_eqb_eq in H; subst k; reflexivity.
Qed.

Lemma check_condition_entry (conds : list (pystr * pyval))
  (k : pystr) (v : pyval) :
  NoDup (map fst conds) -> In (k, v) conds ->
  (forall sub, v = PyDict sub -> NoDup (map fst sub)) ->
  (condition_entry_ok (k, v) = true ->
   Signer.check_condition (PyDict conds) (PyStr k) = Ok tt)
  /\ (condition_entry_ok (k, v) = false ->
      is_invalid_policy (Signer.check_condition (PyDict conds) (PyStr k))).
Proof.
  intros Hnd Hin Hsub.
  unfold Signer.check_condition, condition_entry_ok. cbn [fst snd getitem].
  rewrite allowed_key_cases, (lookup_NoDup k v conds Hnd Hin).
  cbn [rbind].
  destruct (is_date_key k) eqn:Hd; cbn [orb negb andb].
  - rewrite (date_key_not_ip k Hd).
    destruct v as [| | | | |sub];
      try (split; [discriminate | intros _; eexists; reflexivity]).
    cbn [andb orb]. rewrite orb_false_r.
    specialize (Hsub sub eq_refl).
    change (map fst sub) with (map (fun kv : list N * pyval => fst kv) sub).
    apply loop_by_entries. intros [sk x] Hx. cbn [fst snd].
    rewrite (subkey_of_date k Hd). cbn [rbind].
    destruct (str_eqb sk (str "AWS:EpochTime")) eqn:Hsk; cbn [negb andb].
    + apply str_eqb_eq in Hsk. subst sk. cbn [getitem].
      rewrite (lookup_NoDup _ x sub Hsub Hx). cbn [rbind].
      destruct (pytype_eqb (type x) TInt) eqn:Hty.
      * split; [intros _ | discriminate].
        unfold Signer.check_subkey_value. rewrite Hty. reflexivity.
      * split; [discriminate | intros _].
        rewrite epoch_time_type_checked; [eexists; reflexivity|].
        intros Heq. apply pytype_eqb_eq in Heq. congruence.
    + split; [discriminate | intros _; eexists; reflexivity].
  - destruct (str_eqb k (str "IpAddress")) eqn:Hip; cbn [negb andb].
    + destruct v as [| | | | |sub];
        try (split; [discriminate | intros _; eexists; reflexivity]).
      specialize (Hsub sub eq_refl).
      change (map fst sub) with (map (fun kv : list N * pyval => fst kv) sub).
      apply loop_by_entries. intros [sk x] Hx. cbn [fst snd].
      rewrite (subkey_of_ip k Hd Hip). cbn [rbind].
      destruct (str_eqb sk (str "AWS:SourceIp")) eqn:Hsk; cbn [negb].
      * apply str_eqb_eq in Hsk. subst sk. cbn [getitem].
        rewrite (lookup_NoDup _ x sub Hsub Hx). cbn [rbind].
        split; [intros _; apply source_ip_type_unchecked | discriminate].
      * split; [discriminate | intros _; eexists; reflexivity].
    + split; [|intros _; eexists; reflexivity].
      destruct v; discriminate.
Qed.

(** X1.  A policy whose examined statement holds a [Condition] mapping
    and a [Resource] is accepted exactly when every condition is a date
    condition whose sub-keys are all [AWS:EpochTime] with [int] values or an
    [IpAddress] condition whose sub-keys are all [AWS:SourceIp], and the
    resource is a string.  A bad condition gives [InvalidCustomPolicy]; with
    good conditions a resource that is not a string gives the [TypeError] of
    line 151. *)
Theorem validate_well_shaped :
  forall (policy statements statement resource : pyval)
         (conds : list (pystr * pyval)),
    getitem policy (str "Statement") = Ok statements ->
    examined_statement statements = Some statement ->
    getitem statement (str "Condition") = Ok (PyDict conds) ->
    getitem statement (str "Resource") = Ok resource ->
    NoDup (map fst conds) ->
    (forall k sub, In (k, PyDict sub) conds -> NoDup (map fst sub)) ->
    (forallb condition_entry_ok conds = false ->
     is_invalid_policy (Signer._validate_custom_policy policy))
    /\ (forallb condition_entry_ok conds = true -> type resource <> TStr ->
        Signer._validate_custom_policy policy
        = Raise (resource_type_error (type resource)))
    /\ (forallb condition_entry_ok conds = true -> type resource = TStr ->
        Signer._validate_custom_policy policy = Ok tt).
Proof.
  intros policy statements statement resource conds Hs Hex Hc Hr Hnd Hsub.
  rewrite (validate_examined _ _ _ _ _ Hs Hex Hc Hr).
  cbn [iter rbind].
  destruct (loop_by_entries _ _
              (fun kv : list N * pyval => PyStr (fst kv))
              (Signer.check_condition (PyDict conds))
              condition_entry_ok conds) as [Hok Hbad].
  { intros [k v] Hin. cbn [fst].
    apply check_condition_entry; try assumption.
    intros sub ->. now apply (Hsub k sub). }
  split; [|split].
  - intros Hf. destruct (Hbad Hf) as [m ->]. now exists m.
  - intros Ht Hty. rewrite (Hok Ht). cbn [rbind].
    destruct (pytype_eqb (type resource) TStr) eqn:He; [|reflexivity].
    apply pytype_eqb_eq in He. congruence.
  - intros Ht Hty. rewrite (Hok Ht). cbn [rbind]. rewrite Hty. reflexivity.
Qed.

Lemma validate_well_shaped_witness :
  Signer._validate_custom_policy sample_custom_policy = Ok tt.
Proof.
  refine (proj2 (proj2 (validate_well_shaped sample_custom_policy
            (PyDict
               [ (str "Resource", PyStr (str "https://x/y"));
                 (str "Condition",
                  PyDict
                    [ (str "DateLessThan",
                       PyDict [ (str "AWS:EpochTime", PyInt 2000000000) ]);
                      (str "IpAddress",
                       PyDict [ (str "AWS:SourceIp",
                                 PyStr (str "203.0.113.0/24")) ]) ]) ])
            _ (PyStr (str "https://x/y")) _
            eq_refl eq_refl eq_refl eq_refl _ _)) eq_refl eq_refl).
  - repeat constructor; cbn [In]; intros H;
      repeat destruct H as [H|H]; try discriminate; assumption.
  - intros k sub H. cbn [In] in H.
    repeat destruct H as [H|H]; try contradiction; inversion H; subst;
      repeat constructor; intros [].
Defined.

(** X2.  Two policies whose examined statements hold the same
    [Condition] and the same [Resource] get the same verdict: other keys of
    the policy or of the statement, later elements of a statement list, and
    whether the statement stands alone or first in a list, play no part. *)
Theorem validation_reads_condition_and_resource :
  forall (policy1 policy2 statements1 statements2 statement1 statement2
          conditions resource : pyval),
    getitem policy1 (str "Statement") = Ok statements1 ->
    examined_statement statements1 = Some statement1 ->
    getitem statement1 (str "Condition") = Ok conditions ->
    getitem statement1 (str "Resource") = Ok resource ->
    getitem policy2 (str "Statement") = Ok statements2 ->
    examined_statement statements2 = Some statement2 ->
    getitem statement2 (str "Condition") = Ok conditions ->
    getitem statement2 (str "Resource") = Ok resource ->
    Signer._validate_custom_policy policy1
    = Signer._validate_custom_policy policy2.
Proof.
  intros p1 p2 s1 s2 st1 st2 conditions resource
         Hs1 Hex1 Hc1 Hr1 Hs2 Hex2 Hc2 Hr2.
  rewrite (validate_examined _ _ _ _ _ Hs1 Hex1 Hc1 Hr1).
  rewrite (validate_examined _ _ _ _ _ Hs2 Hex2 Hc2 Hr2).
  reflexivity.
Qed.

Lemma validation_reads_condition_and_resource_witness :
  Signer._validate_custom_policy
    (PyDict
       [ (str "Version", PyStr (str "2012-10-17"));
         (str "Statement",
          PyList
            [ PyDict [ (str "Resource", PyStr (str "https://x/y"));
                       (str "Condition", PyDict []);
                       (str "Effect", PyStr (str "Allow")) ];
              PyInt 7 ]) ])
  = Signer._validate_custom_policy
      (PyDict
         [ (str "Statement",
            PyDict [ (str "Condition", PyDict []);
                     (str "Resource", PyStr (str "https://x/y")) ]) ]).
Proof.
  apply (validation_reads_condition_and_resource _ _
           (PyList
              [ PyDict [ (str "Resource", PyStr (str "https://x/y"));
                         (str "Condition", PyDict []);
                         (str "Effect", PyStr (str "Allow")) ];
                PyInt 7 ])
           (PyDict [ (str "Condition", PyDict []);
                     (str "Resource", PyStr (str "https://x/y")) ])
           (PyDict [ (str "Resource", PyStr (str "https://x/y"));
                     (str "Condition", PyDict []);
                     (str "Effect", PyStr (str "Allow")) ])
           (PyDict [ (str "Condition", PyDict []);
                     (str "Resource", PyStr (str "https://x/y")) ])
           (PyDict []) (PyStr (str "https://x/y")));
    reflexivity.
Defined.

(** X3.  The three refusals of lines 83-108: a policy mapping without
    [Statement]; a [Statement] that is falsy (empty list or mapping, [None],
    zero, empty string); a statement mapping that lacks [Condition] or
    [Resource], for which the message names the [Condition] block in both
    cases. *)
Theorem missing_parts_rejected :
  (forall items : list (pystr * pyval),
      lookup (str "Statement") items = None ->
      Signer._validate_custom_policy (PyDict items)
      = Raise (Raised InvalidCustomPolicy
                 [Lit (str "policy is missing Statement")]))
  /\ (forall policy statements : pyval,
        getitem policy (str "Statement") = Ok statements ->
        truthy statements = false ->
        Signer._validate_custom_policy policy
        = Raise (Raised InvalidCustomPolicy
                   [Lit (str "policy statement is empty")]))
  /\ (forall (policy statements : pyval) (items : list (pystr * pyval)),
        getitem policy (str "Statement") = Ok statements ->
        truthy statements = true ->
        examined_statement statements = Some (PyDict items) ->
        lookup (str "Condition") items = None
        \/ lookup (str "Resource") items = None ->
        Signer._validate_custom_policy policy
        = Raise (Raised InvalidCustomPolicy
                   [Lit (str "policy statement must have Condition block")])).
Proof.
  split; [|split].
  - intros items H. unfold Signer._validate_custom_policy.
    cbn [getitem]. rewrite H. reflexivity.
  - intros policy statements Hs Ht. unfold Signer._validate_custom_policy.
    rewrite Hs. cbn [Signer.except_KeyError rbind]. rewrite Ht. reflexivity.
  - intros policy statements items Hs Ht Hex Hmiss.
    unfold Signer._validate_custom_policy.
    rewrite Hs. cbn [Signer.except_KeyError rbind]. rewrite Ht.
    assert (Hcr : Signer.condition_and_resource (PyDict items)
                  = Signer.raise_missing_condition_exception).
    { unfold Signer.condition_and_resource. cbn [getitem].
      destruct (lookup (str "Condition") items) as [c|] eqn:Hc;
        [|reflexivity].
      destruct Hmiss as [Hm|Hm]; [discriminate|]. rewrite Hm. reflexivity. }
    destruct statements as [| | | | [|st l] |sitems]; try discriminate;
      cbn [examined_statement] in Hex; inversion Hex; subst;
      cbn [type getitem0 rbind]; rewrite Hcr; reflexivity.
Qed.

Lemma missing_parts_rejected_witness :
  Signer._validate_custom_policy
    (PyDict [ (str "Statement",
               PyList [ PyDict [ (str "Condition", PyDict []) ] ]) ])
  = Raise (Raised InvalidCustomPolicy
             [Lit (str "policy statement must have Condition block")]).
Proof.
  apply (proj2 (proj2 missing_parts_rejected) _
           (PyList [ PyDict [ (str "Condition", PyDict []) ] ])
           [ (str "Condition", PyDict []) ]);
    try reflexivity.
  right. reflexivity.
Defined.

(** ** Exceptions the validator can raise *)

Lemma condition_and_resource_errors (statement : pyval) (e : exn) :
  Signer.condition_and_resource statement = Raise e ->
  exn_class_of e = InvalidCustomPolicy \/ exn_class_of e = TypeError.
Proof.
  unfold Signer.condition_and_resource.
  destruct (getitem statement (str "Condition")) as [c|e1] eqn:Hc;
    cbn [rbind].
  - destruct (getitem statement (str "Resource")) as [r|e2] eqn:Hr;
      cbn [rbind Signer.except_KeyError]; [discriminate|].
    destruct (getitem_errors _ _ _ Hr) as [-> | ->];
      cbn [exn_class_of]; intros H; inversion H; auto.
  - cbn [Signer.except_KeyError].
    destruct (getitem_errors _ _ _ Hc) as [-> | ->];
      cbn [exn_class_of]; intros H; inversion H; auto.
Qed.

Lemma check_subkey_value_errors (sub_key : pystr) (value : pyval) (e : exn) :
  Signer.check_subkey_value sub_key value = Raise e ->
  exn_class_of e = InvalidCustomPolicy.
Proof.
  unfold Signer.check_subkey_value.
  destruct (_ && _); [intros H; now inversion H|].
  destruct (_ && _); [intros H; now inversion H | discriminate].
Qed.

Lemma check_condition_errors (conditions key : pyval) (keys : list pyval)
  (e : exn) :
  iter conditions = Ok keys -> In key keys ->
  Signer.check_condition conditions key = Raise e ->
  exn_class_of e = InvalidCustomPolicy \/ exn_class_of e = TypeError.
Proof.
  intros Hiter Hin. unfold Signer.check_condition.
  destruct key as [| | |k| |]; try (intros H; inversion H; now left).
  destruct (existsb (str_eqb k) Signer.allowed_condition_keys) eqn:Hall;
    cbn [negb]; [|intros H; inversion H; now left].
  destruct (getitem conditions k) as [value|e1] eqn:Hg; cbn [rbind].
  - destruct value as [| | | | |sub];
      try (intros H; inversion H; now left).
    intros H. apply for_each_Raise in H as (sk & Hsk & H).
    rewrite allowed_key_cases in Hall.
    assert (Ha : exists a,
               Signer.subkey_of k Signer.allowed_condition_key_subkeys = Ok a).
    { destruct (is_date_key k) eqn:Hd.
      - eexists. now apply subkey_of_date.
      - eexists. now apply subkey_of_ip. }
    destruct Ha as [a Ha]. rewrite Ha in H. cbn [rbind] in H.
    destruct (negb (str_eqb sk a)); [inversion H; now left|].
    cbn [getitem] in H. destruct (lookup_In sk sub Hsk) as [x Hx].
    rewrite Hx in H. cbn [rbind] in H.
    left. eapply check_subkey_value_errors. exact H.
  - intros H. inversion H; subst e1.
    destruct (getitem_errors _ _ _ Hg) as [-> | ->]; [|now right].
    exfalso. destruct conditions as [| | | | |items]; try discriminate.
    cbn [iter] in Hiter. inversion Hiter; subst keys.
    apply in_map_iff in Hin as ([k' v'] & Hk & Hin). inversion Hk; subst k'.
    destruct (lookup_In k items) as [x Hx].
    { change k with (fst (k, v')). now apply in_map. }
    cbn [getitem] in Hg. rewrite Hx in Hg. discriminate.
Qed.

(** X4.  Whatever the argument, the validator returns or raises
    [InvalidCustomPolicy] or [TypeError]: a [KeyError] or [IndexError] never
    escapes. *)
Theorem validate_exception_classes :
  forall (policy : pyval) (e : exn),
    Signer._validate_custom_policy policy = Raise e ->
    exn_class_of e = InvalidCustomPolicy \/ exn_class_of e = TypeError.
Proof.
  intros policy e. unfold Signer._validate_custom_policy.
  destruct (getitem policy (str "Statement")) as [statements|e0] eqn:Hs.
  - cbn [Signer.except_KeyError rbind].
    assert (Hrest : forall cr,
      (let '(conditions, resource) := cr in
       rbind (iter conditions) (fun keys =>
       rbind (for_each (Signer.check_condition conditions) keys) (fun _ =>
         let resource_type := type resource in
         if negb (pytype_eqb resource_type TStr)
         then Raise (Raised TypeError
                       [Lit (str "provided Resource must be of type 'str', not '");
                        FmtType resource_type; Lit (str "'")])
         else Ok tt))) = Raise e ->
      exn_class_of e = InvalidCustomPolicy \/ exn_class_of e = TypeError).
    { intros [conditions resource].
      destruct (iter conditions) as [keys|e1] eqn:Hi; cbn [rbind].
      - destruct (for_each (Signer.check_condition conditions) keys)
          as [[]|e2] eqn:Hf; cbn [rbind].
        + destruct (negb _); [intros H; inversion H; now right | discriminate].
        + intros H. inversion H; subst e2.
          apply for_each_Raise in Hf as (key & Hin & Hk).
          eapply check_condition_errors; eassumption.
      - intros H. inversion H; subst e1.
        destruct conditions; cbn [iter] in Hi; try discriminate;
          inversion Hi; now right. }
    destruct (truthy statements) eqn:Ht; [|intros H; inversion H; now left].
    destruct statements as [| | | | l |sitems]; cbn [type];
      try (cbn [rbind]; apply (Hrest (PyDict [], PyStr []))).
    + destruct l as [|st l]; [discriminate|]. cbn [getitem0 rbind].
      destruct (Signer.condition_and_resource st) as [cr|e1] eqn:Hcr;
        cbn [rbind]; [apply Hrest|].
      intros H. inversion H; subst e1.
      eapply condition_and_resource_errors; eassumption.
    + destruct (Signer.condition_and_resource (PyDict sitems))
        as [cr|e1] eqn:Hcr; cbn [rbind]; [apply Hrest|].
      intros H. inversion H; subst e1.
      eapply condition_and_resource_errors; eassumption.
  - destruct (getitem_errors _ _ _ Hs) as [-> | ->];
      cbn [Signer.except_KeyError exn_class_of rbind];
      intros H; inversion H; auto.
Qed.

Lemma validate_exception_classes_witness :
  exn_class_of (Builtin TypeError) = InvalidCustomPolicy
  \/ exn_class_of (Builtin TypeError) = TypeError.
Proof.
  apply (validate_exception_classes
           (PyDict [ (str "Statement", PyList [PyStr (str "x")]) ])).
  vm_compute. reflexivity.
Defined.

(** X5.  The conditions are checked in the order of the mapping and the
    first bad one decides the message: a key outside the three allowed ones
    is named in it, a value that is not a mapping has its type named, and a
    first sub-key other than the allowed one is named.  The resource is not
    looked at in these cases. *)
Theorem first_bad_condition_reported :
  forall (policy statements statement resource : pyval)
         (pre post : list (pystr * pyval)) (k : pystr) (v : pyval),
    getitem policy (str "Statement") = Ok statements ->
    examined_statement statements = Some statement ->
    getitem statement (str "Condition")
    = Ok (PyDict (pre ++ (k, v) :: post)) ->
    getitem statement (str "Resource") = Ok resource ->
    NoDup (map fst (pre ++ (k, v) :: post)) ->
    (forall k' sub, In (k', PyDict sub) pre -> NoDup (map fst sub)) ->
    forallb condition_entry_ok pre = true ->
    (existsb (str_eqb k) Signer.allowed_condition_keys = false ->
     Signer._validate_custom_policy policy
     = Raise (Raised InvalidCustomPolicy
                [Lit (str "invalid condition key: "); Fmt (PyStr k);
                 Lit (str " - key must be DateLessThan, DateGreaterThan, or IpAddress")]))
    /\ (existsb (str_eqb k) Signer.allowed_condition_keys = true ->
        type v <> TDict ->
        Signer._validate_custom_policy policy
        = Raise (Raised InvalidCustomPolicy
                   [Lit (str "condition key value must be of type 'dict'");
                    Lit (str ", not "); FmtType (type v)]))
    /\ (forall allowed sk x more,
          Signer.subkey_of k Signer.allowed_condition_key_subkeys = Ok allowed ->
          v = PyDict ((sk, x) :: more) -> sk <> allowed ->
          Signer._validate_custom_policy policy
          = Raise (Raised InvalidCustomPolicy
                     [Lit (str "invalid condition key sub-key found: ");
                      Fmt (PyStr sk)])).
Proof.
  intros policy statements statement resource pre post k v
         Hs Hex Hc Hr Hnd Hsub Hpre.
  rewrite (validate_examined _ _ _ _ _ Hs Hex Hc Hr).
  cbn [iter rbind]. rewrite map_app. cbn [map fst].
  set (conds := pre ++ (k, v) :: post) in *.
  assert (Hok : Forall (fun y => Signer.check_condition (PyDict conds) y = Ok tt)
                  (map (fun kv : list N * pyval => PyStr (fst kv)) pre)).
  { apply Forall_map, Forall_forall. intros [k' v'] Hin. cbn [fst].
    rewrite forallb_forall in Hpre.
    apply (check_condition_entry conds k' v' Hnd).
    - unfold conds. apply in_or_app. now left.
    - intros sub ->. now apply (Hsub k' sub).
    - now apply Hpre. }
  assert (Hl : lookup k conds = Some v).
  { apply lookup_NoDup; [exact Hnd|]. unfold conds.
    apply in_or_app. right. now left. }
  assert (Hfirst : forall e,
             Signer.check_condition (PyDict conds) (PyStr k) = Raise e ->
             rbind (for_each (Signer.check_condition (PyDict conds))
                      (map (fun kv : list N * pyval => PyStr (fst kv)) pre
                       ++ PyStr k
                          :: map (fun kv : list N * pyval => PyStr (fst kv))
                               post))
               (fun _ => if negb (pytype_eqb (type resource) TStr)
                         then Raise (resource_type_error (type resource))
                         else Ok tt)
             = Raise e).
  { intros e He. now rewrite (for_each_first_error _ _ _ _ _ _ Hok He). }
  split; [|split].
  - intros Hk. apply Hfirst. unfold Signer.check_condition. rewrite Hk.
    reflexivity.
  - intros Hk Hty. apply Hfirst. unfold Signer.check_condition.
    rewrite Hk. cbn [negb getitem]. rewrite Hl. cbn [rbind].
    destruct v; try reflexivity. now elim Hty.
  - intros allowed sk x more Ha -> Hne. apply Hfirst.
    unfold Signer.check_condition.
    assert (Hk : existsb (str_eqb k) Signer.allowed_condition_keys = true).
    { rewrite allowed_key_cases. unfold is_date_key.
      unfold Signer.allowed_condition_key_subkeys in Ha.
      cbn [Signer.subkey_of] in Ha.
      destruct (str_eqb k (str "DateLessThan")); [reflexivity|].
      destruct (str_eqb k (str "DateGreaterThan")); [reflexivity|].
      destruct (str_eqb k (str "IpAddress")); [reflexivity | discriminate]. }
    rewrite Hk. cbn [negb getitem]. rewrite Hl.
    cbn [rbind map fst for_each]. rewrite Ha. cbn [rbind].
    destruct (str_eqb sk allowed) eqn:Heq; [|reflexivity].
    apply str_eqb_eq in Heq. contradiction.
Qed.

Lemma first_bad_condition_reported_witness :
  Signer._validate_custom_policy
    (PyDict
       [ (str "Statement",
          PyDict
            [ (str "Resource", PyInt 3);
              (str "Condition",
               PyDict
                 [ (str "DateLessThan",
                    PyDict [ (str "AWS:EpochTime", PyInt 2000000000) ]);
                   (str "DateEquals", PyDict []);
                   (str "Other", PyNone) ]) ]) ])
  = Raise (Raised InvalidCustomPolicy
             [Lit (str "invalid condition key: "); Fmt (PyStr (str "DateEquals"));
              Lit (str " - key must be DateLessThan, DateGreaterThan, or IpAddress")]).
Proof.
  pose (st :=
    PyDict
      [ (str "Resource", PyInt 3);
        (str "Condition",
         PyDict
           [ (str "DateLessThan",
              PyDict [ (str "AWS:EpochTime", PyInt 2000000000) ]);
             (str "DateEquals", PyDict []);
             (str "Other", PyNone) ]) ]).
  refine (proj1 (first_bad_condition_reported
            (PyDict [ (str "Statement", st) ]) st st (PyInt 3)
            [ (str "DateLessThan",
               PyDict [ (str "AWS:EpochTime", PyInt 2000000000) ]) ]
            [ (str "Other", PyNone) ] (str "DateEquals") (PyDict [])
            eq_refl eq_refl eq_refl eq_refl _ _ eq_refl) eq_refl).
  - repeat constructor; cbn [In]; intros H;
      repeat destruct H as [H|H]; try discriminate; assumption.
  - intros k' sub H. cbn [In] in H.
    repeat destruct H as [H|H]; try contradiction; inversion H; subst;
      repeat constructor; intros [].
Defined.

(** X6.  A [Condition] that is not a mapping: the empty list and the
    empty string pass like an empty mapping when the resource is a string,
    while [None], a number or a boolean ends in the interpreter's
    [TypeError]. *)
Theorem condition_not_a_mapping :
  forall (policy statements statement conditions : pyval) (resource : pystr),
    getitem policy (str "Statement") = Ok statements ->
    examined_statement statements = Some statement ->
    getitem statement (str "Condition") = Ok conditions ->
    getitem statement (str "Resource") = Ok (PyStr resource) ->
    (conditions = PyList [] \/ conditions = PyStr [] ->
     Signer._validate_custom_policy policy = Ok tt)
    /\ (type conditions = TNoneType \/ type conditions = TInt
        \/ type conditions = TBool ->
        Signer._validate_custom_policy policy = Raise (Builtin TypeError)).
Proof.
  intros policy statements statement conditions resource Hs Hex Hc Hr.
  rewrite (validate_examined _ _ _ _ _ Hs Hex Hc Hr).
  split.
  - intros [-> | ->]; reflexivity.
  - intros H. destruct conditions; cbn [type] in H;
      try reflexivity; destruct H as [H|[H|H]]; discriminate.
Qed.

Lemma condition_not_a_mapping_witness :
  Signer._validate_custom_policy
    (PyDict
       [ (str "Statement",
          PyDict [ (str "Resource", PyStr (str "https://x/y"));
                   (str "Condition", PyList []) ]) ])
  = Ok tt.
Proof.
  pose (st := PyDict [ (str "Resource", PyStr (str "https://x/y"));
                       (str "Condition", PyList []) ]).
  apply (proj1 (condition_not_a_mapping
                  (PyDict [ (str "Statement", st) ]) st st
                  (PyList []) (str "https://x/y")
                  eq_refl eq_refl eq_refl eq_refl)).
  left. reflexivity.
Defined.

Lemma epoch_time_rejected_witness :
  Signer._validate_custom_policy
    (PyDict
       [ (str "Statement",
          PyDict
            [ (str "Resource", PyStr (str "https://x/y"));
              (str "Condition",
               PyDict
                 [ (str "DateLessThan",
                    PyDict [ (str "AWS:EpochTime", PyStr (str "2000000000")) ])
                 ]) ]) ])
  = Raise (Raised InvalidCustomPolicy
             [Lit (str "AWS:EpochTime value must be of type 'int'");
              Lit (str ", not "); FmtType TStr]).
Proof.
  apply (epoch_time_rejected (str "DateLessThan")
           (PyStr (str "2000000000")) (PyStr (str "https://x/y")) []).
  - left. reflexivity.
  - discriminate.
Defined.

(** ** The substitution *)

Ltac eqb_cases :=
  repeat match goal with
  | |- context [(?a =? ?b)%N] => destruct (N.eqb_spec a b)
  | H : context [(?a =? ?b)%N] |- _ => destruct (N.eqb_spec a b)
  end; subst; try congruence; try lia; try reflexivity.

(** X7.  [_sanitize_b64] leaves no [+], [=] or [/] in its result, keeps
    the length, changes nothing when applied a second time, and is the
    identity on a string free of the three characters. *)
Theorem sanitize_b64_safe :
  forall s : pystr,
    (~ In 43%N (Signer._sanitize_b64 s)
     /\ ~ In 61%N (Signer._sanitize_b64 s)
     /\ ~ In 47%N (Signer._sanitize_b64 s))
    /\ List.length (Signer._sanitize_b64 s) = List.length s
    /\ Signer._sanitize_b64 (Signer._sanitize_b64 s) = Signer._sanitize_b64 s
    /\ (~ In 43%N s -> ~ In 61%N s -> ~ In 47%N s ->
        Signer._sanitize_b64 s = s).
Proof.
  intros s. rewrite !sanitize_b64_map.
  split; [|split; [|split]].
  - repeat split; intros H; apply in_map_iff in H as (c & Hc & _);
      revert Hc; eqb_cases.
  - apply length_map.
  - rewrite map_map. apply map_ext. intros c. eqb_cases.
  - intros H1 H2 H3. rewrite <- (map_id s) at 2. apply map_ext_in.
    intros c Hc. eqb_cases.
Qed.

Lemma sanitize_b64_safe_witness :
  Signer._sanitize_b64 (str "abc-_~") = str "abc-_~".
Proof.
  apply (proj2 (proj2 (proj2 (sanitize_b64_safe (str "abc-_~")))));
    cbn [In str map list_ascii_of_string N_of_ascii N_of_digits];
    intros H; repeat destruct H as [H|H]; try discriminate; assumption.
Defined.

(** ** Cookie values *)

Lemma b64encode_length (b : pybytes) :
  List.length (Base64.b64encode b) = (4 * ((List.length b + 2) / 3))%nat.
Proof.
  induction b as [| b0 | b0 b1 | b0 b1 b2 rest IH] using list_ind3;
    try reflexivity.
  rewrite b64encode_cons3. cbn [List.length]. rewrite IH.
  replace (S (S (S (List.length rest))) + 2)%nat
    with ((List.length rest + 2) + 1 * 3)%nat by lia.
  rewrite Nat.div_add by lia. lia.
Qed.

Lemma b64encode_chars (b : pybytes) :
  Forall (fun c => c < 256)%N b ->
  Forall (fun c => c = Base64.pad \/ exists i, (i < 64)%N /\ c = Base64.b64char i)
    (Base64.b64encode b).
Proof.
  induction b as [| b0 | b0 b1 | b0 b1 b2 rest IH] using list_ind3;
    intros Hb.
  - constructor.
  - inversion Hb as [|? ? H0 _]; subst.
    destruct (sextets3 b0 0 0 H0 ltac:(lia) ltac:(lia))
      as (Hi0 & Hi1 & _). cbv zeta in *.
    change (0 / 16)%N with 0%N in *. rewrite N.add_0_r in Hi1.
    cbn [Base64.b64encode].
    repeat (constructor;
            [solve [now left
                   | right; eexists; split; [|reflexivity]; assumption]|]).
    constructor.
  - inversion Hb as [|? ? H0 Hb']; subst.
    inversion Hb' as [|? ? H1 _]; subst.
    destruct (sextets3 b0 b1 0 H0 H1 ltac:(lia))
      as (Hi0 & Hi1 & Hi2 & _). cbv zeta in *.
    change (0 / 64)%N with 0%N in *. rewrite N.add_0_r in Hi2.
    cbn [Base64.b64encode].
    repeat (constructor;
            [solve [now left
                   | right; eexists; split; [|reflexivity]; assumption]|]).
    constructor.
  - inversion Hb as [|? ? H0 Hb']; subst.
    inversion Hb' as [|? ? H1 Hb'']; subst.
    inversion Hb'' as [|? ? H2 Hrest]; subst.
    destruct (sextets3 b0 b1 b2 H0 H1 H2) as (Hi0 & Hi1 & Hi2 & Hi3 & _).
    cbv zeta in *. rewrite b64encode_cons3.
    repeat (constructor;
            [right; eexists; split; [|reflexivity]; assumption|]).
    now apply IH.
Qed.

Lemma sanitized_b64_cookie_safe (b : pybytes) :
  Forall (fun c => c < 256)%N b ->
  forallb cookie_safe (Signer._sanitize_b64 (Base64.b64encode b)) = true.
Proof.
  intros Hb. rewrite sanitize_b64_map. apply forallb_forall.
  intros x Hx. apply in_map_iff in Hx as (c & <- & Hc).
  pose proof (b64encode_chars b Hb) as Hall. rewrite Forall_forall in Hall.
  destruct (Hall c Hc) as [-> | (i & Hi & ->)]; [reflexivity|].
  exact (below_64_cases
           (fun i => cookie_safe
                       (if (Base64.b64char i =? 43)%N then 45%N
                        else if (Base64.b64char i =? 61)%N then 95%N
                        else if (Base64.b64char i =? 47)%N then 126%N
                        else Base64.b64char i))
           eq_refl i Hi).
Qed.

Lemma generate_cookies_Ok_inv (self : Signer.t) (clk : Clock)
  (R : pystr) (P : pyval) (S : Z)
  (log : list event) (cookies : list (pystr * pystr)) :
  Signer.generate_cookies self clk R P S = (log, Ok cookies) ->
  exists l policy signature,
    chosen_policy clk R P S = (l, Ok policy)
    /\ Forall (fun c => c < 128)%N policy
    /\ key_sign (Signer.priv_key self) policy pss_sha384 SHA384 = Ok signature
    /\ log = l ++ [EvSign policy pss_sha384 SHA384]
    /\ cookies
       = [ (str "CloudFront-Policy",
            Signer._sanitize_b64 (Base64.b64encode policy));
           (str "CloudFront-Signature",
            Signer._sanitize_b64 (Base64.b64encode signature));
           (str "CloudFront-Key-Pair-Id", Signer.cloudfront_key_id self) ].
Proof.
  intros H. rewrite generate_cookies_phases in H.
  apply bind_Ok_inv in H as (l1 & policy & l2 & Hc & He & ->).
  destruct (chosen_policy_canonical _ _ _ _ _ _ Hc) as [d Hd].
  assert (Ha : Forall (fun c => c < 128)%N policy)
    by (rewrite Hd; apply to_json_ascii).
  rewrite (encode_cookies_ascii self policy Ha) in He.
  destruct (key_sign (Signer.priv_key self) policy pss_sha384 SHA384)
    as [signature|e] eqn:Hk; [|discriminate].
  inversion He; subst l2 cookies. exists l1, policy, signature.
  repeat split; assumption.
Qed.

(** X8.  In a returned cookie set the policy value is made of letters,
    digits, [-], [_] and [~] only, and is four characters long for every
    three characters (or part of three) of the policy string; the signature
    value is made of the same characters when the signature consists of
    bytes. *)
Theorem cookie_values_safe :
  forall (self : Signer.t) (clk : Clock) (R : pystr) (P : pyval) (S : Z)
         (log : list event) (cookies : list (pystr * pystr)),
    Signer.generate_cookies self clk R P S = (log, Ok cookies) ->
    exists (l : list event) (policy policy_value signature_value : pystr),
      chosen_policy clk R P S = (l, Ok policy)
      /\ assoc (str "CloudFront-Policy") cookies = Some policy_value
      /\ forallb cookie_safe policy_value = true
      /\ List.length policy_value
         = (4 * ((List.length policy + 2) / 3))%nat
      /\ assoc (str "CloudFront-Signature") cookies = Some signature_value
      /\ ((forall data padding algorithm signature,
             key_sign (Signer.priv_key self) data padding algorithm
             = Ok signature ->
             Forall (fun c => c < 256)%N signature) ->
          forallb cookie_safe signature_value = true).
Proof.
  intros self clk R P S log cookies H.
  apply generate_cookies_Ok_inv in H
    as (l & policy & signature & Hc & Ha & Hk & -> & ->).
  exists l, policy, (Signer._sanitize_b64 (Base64.b64encode policy)),
    (Signer._sanitize_b64 (Base64.b64encode signature)).
  split; [exact Hc|]. split; [reflexivity|]. split.
  { apply sanitized_b64_cookie_safe.
    eapply Forall_impl; [|exact Ha]. simpl. intros; lia. }
  split.
  { rewrite sanitize_b64_map, length_map. apply b64encode_length. }
  split; [reflexivity|].
  intros Hwf. apply sanitized_b64_cookie_safe. eapply Hwf. exact Hk.
Qed.

Lemma cookie_values_safe_witness :
  exists (l : list event) (policy policy_value signature_value : pystr),
    chosen_policy sample_clock sample_resource (PyDict []) 900
    = (l, Ok policy)
    /\ assoc (str "CloudFront-Policy")
         (match snd (Signer.generate_cookies sample_signer sample_clock
                       sample_resource (PyDict []) 900) with
          | Ok cookies => cookies
          | Raise _ => []
          end) = Some policy_value
    /\ forallb cookie_safe policy_value = true
    /\ List.length policy_value
       = (4 * ((List.length policy + 2) / 3))%nat
    /\ assoc (str "CloudFront-Signature")
         (match snd (Signer.generate_cookies sample_signer sample_clock
                       sample_resource (PyDict []) 900) with
          | Ok cookies => cookies
          | Raise _ => []
          end) = Some signature_value
    /\ ((forall data padding algorithm signature,
           key_sign (Signer.priv_key sample_signer) data padding algorithm
           = Ok signature ->
           Forall (fun c => c < 256)%N signature) ->
        forallb cookie_safe signature_value = true).
Proof.
  apply (cookie_values_safe sample_signer sample_clock sample_resource
           (PyDict []) 900
           (fst (Signer.generate_cookies sample_signer sample_clock
                   sample_resource (PyDict []) 900))).
  vm_compute. reflexivity.
Defined.

(** X9.  In a returned cookie set the signature value, with the
    substitution undone and decoded from standard base64, is the signature
    the primitive returned for the signed bytes, as long as that signature
    consists of bytes. *)
Theorem signature_cookie_round_trip :
  forall (self : Signer.t) (clk : Clock) (R : pystr) (P : pyval) (S : Z)
         (log : list event) (cookies : list (pystr * pystr)),
    Signer.generate_cookies self clk R P S = (log, Ok cookies) ->
    exists (data signature : pybytes) (value : pystr),
      In (EvSign data pss_sha384 SHA384) log
      /\ key_sign (Signer.priv_key self) data pss_sha384 SHA384 = Ok signature
      /\ assoc (str "CloudFront-Signature") cookies = Some value
      /\ (Forall (fun c => c < 256)%N signature ->
          Base64.b64decode (unsanitize_b64 value) = Some signature).
Proof.
  intros self clk R P S log cookies H.
  apply generate_cookies_Ok_inv in H
    as (l & policy & signature & Hc & Ha & Hk & -> & ->).
  exists policy, signature,
    (Signer._sanitize_b64 (Base64.b64encode signature)).
  split; [apply in_or_app; right; now left|].
  split; [exact Hk|]. split; [reflexivity|].
  intros Hsig. rewrite unsanitize_sanitize by apply b64encode_unsanitized.
  now apply b64decode_b64encode.
Qed.

Lemma signature_cookie_round_trip_witness :
  exists (data signature : pybytes) (value : pystr),
    In (EvSign data pss_sha384 SHA384)
       (fst (Signer.generate_cookies sample_signer sample_clock
               sample_resource (PyDict []) 900))
    /\ key_sign (Signer.priv_key sample_signer) data pss_sha384 SHA384
       = Ok signature
    /\ assoc (str "CloudFront-Signature")
         (match snd (Signer.generate_cookies sample_signer sample_clock
                       sample_resource (PyDict []) 900) with
          | Ok cookies => cookies
          | Raise _ => []
          end) = Some value
    /\ (Forall (fun c => c < 256)%N signature ->
        Base64.b64decode (unsanitize_b64 value) = Some signature).
Proof.
  apply (signature_cookie_round_trip sample_signer sample_clock
           sample_resource (PyDict []) 900).
  vm_compute. reflexivity.
Defined.

(** X10.  An exception of the signing primitive leaves [generate_cookies]
    as it is, after the one signing call; no cookie is returned. *)
Theorem signing_error_surfaces :
  forall (self : Signer.t) (clk : Clock) (R : pystr) (P : pyval) (S : Z)
         (l : list event) (policy : pystr) (e : exn),
    chosen_policy clk R P S = (l, Ok policy) ->
    key_sign (Signer.priv_key self) policy pss_sha384 SHA384 = Raise e ->
    Signer.generate_cookies self clk R P S
    = (l ++ [EvSign policy pss_sha384 SHA384], Raise e).
Proof.
  intros self clk R P S l policy e Hc Hk.
  destruct (chosen_policy_canonical _ _ _ _ _ _ Hc) as [d Hd].
  rewrite generate_cookies_phases, Hc. unfold bind. cbn [fst snd].
  rewrite encode_cookies_ascii by (rewrite Hd; apply to_json_ascii).
  cbn [fst snd]. now rewrite Hk.
Qed.

Lemma signing_error_surfaces_witness :
  Signer.generate_cookies
    {| Signer.cloudfront_key_id := sample_key_id;
       Signer.priv_key :=
         {| key_sign := fun _ _ _ => Raise (Builtin CryptographyError) |} |}
    sample_clock sample_resource sample_custom_policy 900
  = ([] ++ [EvSign (Signer._to_json sample_custom_policy) pss_sha384 SHA384],
     Raise (Builtin CryptographyError)).
Proof.
  apply signing_error_surfaces; reflexivity.
Defined.

(** X11.  A call of [generate_cookies] reads the clock at most once,
    before signing, calls the signing primitive at most once, and does
    nothing else outside the process; the clock is read on the canned path
    only, and a run that ends before the signing call ends in an
    exception. *)
Theorem generate_cookies_log_shape :
  forall (self : Signer.t) (clk : Clock) (R : pystr) (P : pyval) (S : Z),
    (exists e,
        Signer.generate_cookies self clk R P S = ([], Raise e))
    \/ (exists e,
          Signer.generate_cookies self clk R P S = ([EvNow], Raise e)
          /\ truthy P = false)
    \/ (exists policy r,
          Signer.generate_cookies self clk R P S
          = ([EvSign policy pss_sha384 SHA384], r)
          /\ truthy P = true)
    \/ (exists policy r,
          Signer.generate_cookies self clk R P S
          = ([EvNow; EvSign policy pss_sha384 SHA384], r)
          /\ truthy P = false).
Proof.
  intros self clk R P S. rewrite generate_cookies_phases.
  destruct (chosen_policy clk R P S) as [l [policy|e]] eqn:Hc.
  - destruct (chosen_policy_canonical _ _ _ _ _ _ Hc) as [d Hd].
    unfold bind. cbn [fst snd].
    rewrite encode_cookies_ascii by (rewrite Hd; apply to_json_ascii).
    cbn [fst snd].
    destruct (truthy P) eqn:HP.
    + rewrite chosen_policy_custom in Hc by assumption.
      inversion Hc; subst l. right. right. left.
      eexists. eexists. split; reflexivity.
    + destruct R as [|c R].
      * rewrite chosen_policy_missing in Hc by assumption. discriminate.
      * rewrite chosen_policy_canned in Hc by (assumption || discriminate).
        inversion Hc; subst l. right. right. right.
        eexists. eexists. split; reflexivity.
  - unfold bind. cbn [fst snd].
    destruct (truthy P) eqn:HP.
    + rewrite chosen_policy_custom in Hc by assumption.
      inversion Hc; subst l. left. now exists e.
    + destruct R as [|c R].
      * rewrite chosen_policy_missing in Hc by assumption.
        inversion Hc; subst l. left. eexists. reflexivity.
      * rewrite chosen_policy_canned in Hc by (assumption || discriminate).
        inversion Hc; subst l. right. left. exists e. now split.
Qed.

(** X12.  The document that [_make_canned_policy] serialises passes
    [_validate_custom_policy], and handing it to [generate_cookies] as a
    custom policy signs and encodes the very string of the canned path. *)
Theorem canned_document_is_valid :
  forall (resource : pystr) (expiration_date : Z),
    Signer._validate_custom_policy
      (Signer.canned_policy_document resource expiration_date) = Ok tt
    /\ (forall (self : Signer.t) (clk : Clock) (R : pystr) (S : Z),
          Signer.generate_cookies self clk R
            (Signer.canned_policy_document resource expiration_date) S
          = encode_cookies self
              (Signer._make_canned_policy resource expiration_date)).
Proof.
  intros resource expiration_date.
  assert (Hv : Signer._validate_custom_policy
                 (Signer.canned_policy_document resource expiration_date)
               = Ok tt) by reflexivity.
  split; [exact Hv|]. intros self clk R S.
  rewrite generate_cookies_phases, chosen_policy_custom by reflexivity.
  rewrite Hv. unfold bind. cbn [fst snd app Signer._make_canned_policy].
  now destruct (encode_cookies _ _).
Qed.

(** X13.  On the canned path a [SecondsBeforeExpires] of more than
    999999999 days, or an expiry outside the years 1 to 9999, ends the call
    in [OverflowError] after the clock was read; nothing is signed. *)
Theorem expiry_out_of_range_raises :
  forall (self : Signer.t) (clk : Clock) (R : pystr) (P : pyval) (S : Z),
    truthy P = false -> R <> [] ->
    (Z.abs (S / 86400) > 999999999
     \/ epoch_us clk + utc_offset_us clk + S * 1000000 < Datetime.min_us
     \/ Datetime.max_us < epoch_us clk + utc_offset_us clk + S * 1000000)%Z ->
    Signer.generate_cookies self clk R P S
    = ([EvNow], Raise (Builtin OverflowError)).
Proof.
  intros self clk R P S HP HR Hout.
  rewrite generate_cookies_phases, chosen_policy_canned by assumption.
  unfold Datetime.timedelta, Datetime.add.
  destruct (Z.gtb_spec (Z.abs (S / 86400)) 999999999) as [Hd|Hd];
    cbn [rbind]; [reflexivity|].
  destruct (Z.ltb_spec (epoch_us clk + utc_offset_us clk + S * 1000000)
              Datetime.min_us) as [Hlo|Hlo]; cbn [orb rbind]; [reflexivity|].
  destruct (Z.ltb_spec Datetime.max_us
              (epoch_us clk + utc_offset_us clk + S * 1000000)) as [Hhi|Hhi];
    cbn [rbind]; [reflexivity|].
  lia.
Qed.

Lemma expiry_out_of_range_raises_witness :
  Signer.generate_cookies sample_signer sample_clock sample_resource
    (PyDict []) 400000000000
  = ([EvNow], Raise (Builtin OverflowError)).
Proof.
  apply expiry_out_of_range_raises.
  - reflexivity.
  - discriminate.
  - right. right. vm_compute. reflexivity.
Defined.

(** X14.  The canonical string is never empty and holds visible ASCII
    characters only: control characters and characters beyond ASCII of the
    document appear as escapes.  Its UTF-8 encoding is the string itself,
    one byte for each character. *)
Theorem canonical_form_is_ascii :
  forall d : pyval,
    Signer._to_json d <> []
    /\ Forall (fun c => 33 <= c <= 126)%N (Signer._to_json d)
    /\ Utf8.encode (Signer._to_json d) = Ok (Signer._to_json d).
Proof.
  intros d. split; [|split].
  - destruct d as [|[|]|z|s|l|items]; try discriminate.
    rewrite to_json_int. unfold Json.int_repr.
    destruct (Z.to_int z) as [u|u] eqn:Hz; [|discriminate].
    destruct z as [|p|p]; cbn in Hz; try discriminate.
    + inversion Hz. discriminate.
    + inversion Hz; subst u. intros Hnil.
      pose proof (DecimalPos.Unsigned.to_uint_nonnil p) as Hnn.
      destruct (Pos.to_uint p); try discriminate. now apply Hnn.
  - apply to_json_visible.
  - apply utf8_encode_ascii, to_json_ascii.
Qed.

(** ** The expiry of a canned policy *)

Lemma chosen_policy_canned_Ok (clk : Clock) (R : pystr) (P : pyval) (S : Z)
  (l : list event) (policy : pystr) :
  truthy P = false ->
  chosen_policy clk R P S = (l, Ok policy) ->
  exists expiration_date,
    Datetime.int_timestamp clk
      (epoch_us clk + utc_offset_us clk + S * 1000000)
    = Ok expiration_date
    /\ policy = Signer._make_canned_policy R expiration_date.
Proof.
  intros HP Hc. destruct R as [|c R].
  - rewrite chosen_policy_missing in Hc by assumption. discriminate.
  - rewrite chosen_policy_canned in Hc by (assumption || discriminate).
    unfold Datetime.timedelta, Datetime.add in Hc.
    destruct (Z.abs (S / 86400) >? 999999999)%Z; [discriminate|].
    cbn [rbind] in Hc. destruct (_ || _)%bool; [discriminate|].
    cbn [rbind] in Hc.
    destruct (Datetime.int_timestamp clk _) as [e|] eqn:He; [|discriminate].
    cbn [rbind] in Hc. inversion Hc as [[Hl Hp]]. exists e.
    split; reflexivity.
Qed.

(** X15.  The policy cookie of a canned call is decided by the resource
    and by the integer that [int(expires_on.timestamp())] returns: two canned
    calls for the same resource for which that integer is the same return the
    same policy cookie, whatever the signers, the clocks, the zones and the
    delays. *)
Theorem same_expiry_same_policy_cookie :
  forall (self1 self2 : Signer.t) (clk1 clk2 : Clock) (R : pystr)
         (P1 P2 : pyval) (S1 S2 : Z) (log1 log2 : list event)
         (cookies1 cookies2 : list (pystr * pystr)),
    truthy P1 = false -> truthy P2 = false ->
    Signer.generate_cookies self1 clk1 R P1 S1 = (log1, Ok cookies1) ->
    Signer.generate_cookies self2 clk2 R P2 S2 = (log2, Ok cookies2) ->
    Datetime.int_timestamp clk1
      (epoch_us clk1 + utc_offset_us clk1 + S1 * 1000000)
    = Datetime.int_timestamp clk2
        (epoch_us clk2 + utc_offset_us clk2 + S2 * 1000000) ->
    exists value,
      assoc (str "CloudFront-Policy") cookies1 = Some value
      /\ assoc (str "CloudFront-Policy") cookies2 = Some value.
Proof.
  intros self1 self2 clk1 clk2 R P1 P2 S1 S2 log1 log2 cookies1 cookies2
         HP1 HP2 H1 H2 Hsame.
  apply generate_cookies_Ok_inv in H1
    as (l1 & policy1 & sig1 & Hc1 & _ & _ & _ & ->).
  apply generate_cookies_Ok_inv in H2
    as (l2 & policy2 & sig2 & Hc2 & _ & _ & _ & ->).
  destruct (chosen_policy_canned_Ok _ _ _ _ _ _ HP1 Hc1) as (e1 & He1 & ->).
  destruct (chosen_policy_canned_Ok _ _ _ _ _ _ HP2 Hc2) as (e2 & He2 & ->).
  rewrite He1, He2 in Hsame. inversion Hsame; subst e2.
  eexists. split; reflexivity.
Qed.

Lemma same_expiry_same_policy_cookie_witness :
  exists value,
    assoc (str "CloudFront-Policy")
      (match snd (Signer.generate_cookies sample_signer sample_clock
                    sample_resource (PyDict []) 900) with
       | Ok cookies => cookies
       | Raise _ => []
       end) = Some value
    /\ assoc (str "CloudFront-Policy")
         (match snd (Signer.generate_cookies sample_signer
                       {| epoch_us := 1700000100000001;
                          zone := fun _ => 0%Z |}
                       sample_resource PyNone 800) with
          | Ok cookies => cookies
          | Raise _ => []
          end) = Some value.
Proof.
  apply (same_expiry_same_policy_cookie sample_signer sample_signer
           sample_clock
           {| epoch_us := 1700000100000001; zone := fun _ => 0%Z |}
           sample_resource (PyDict []) PyNone 900 800
           (fst (Signer.generate_cookies sample_signer sample_clock
                   sample_resource (PyDict []) 900))
           (fst (Signer.generate_cookies sample_signer
                   {| epoch_us := 1700000100000001; zone := fun _ => 0%Z |}
                   sample_resource PyNone 800)));
    vm_compute; reflexivity.
Defined.

(** ** Construction, case by case *)

Lemma key_id_checked_witness :
  Signer.__init__ sample_env sample_key_id (str "key.pem")
  = ([EvExists (str "key.pem"); EvRead (str "key.pem"); EvLoadPem []],
     Ok {| Signer.cloudfront_key_id := sample_key_id;
           Signer.priv_key := sample_key |}).
Proof.
  apply (proj1 (key_id_checked sample_env sample_key_id (str "key.pem")));
    reflexivity.
Defined.

(** X17.  With a key identifier the pattern lets through: a key file
    that does not exist gives [PrivateKeyNotFound] naming the path, and the
    file is not opened; an error while reading the file, or while parsing the
    key, leaves [__init__] unchanged. *)
Theorem init_key_file_errors :
  forall (env : Env) (cloudfront_key_id priv_key_file : pystr),
    Re.match_ Signer.key_id_pattern cloudfront_key_id = true ->
    (fs_exists env priv_key_file = false ->
     Signer.__init__ env cloudfront_key_id priv_key_file
     = ([EvExists priv_key_file],
        Raise (Raised PrivateKeyNotFound
                 [Fmt (PyStr priv_key_file); Lit (str " not found")])))
    /\ (forall e,
          fs_exists env priv_key_file = true ->
          fs_read env priv_key_file = Raise e ->
          Signer.__init__ env cloudfront_key_id priv_key_file
          = ([EvExists priv_key_file; EvRead priv_key_file], Raise e))
    /\ (forall key_bytes e,
          fs_exists env priv_key_file = true ->
          fs_read env priv_key_file = Ok key_bytes ->
          load_pem_private_key env key_bytes = Raise e ->
          Signer.__init__ env cloudfront_key_id priv_key_file
          = ([EvExists priv_key_file; EvRead priv_key_file;
              EvLoadPem key_bytes], Raise e)).
Proof.
  intros env kid path Hm. unfold Signer.__init__. rewrite Hm. cbn [negb].
  unfold bind, emit, ret, raise. cbn [fst snd].
  split; [|split].
  - intros He. rewrite He. reflexivity.
  - intros e He Hr. rewrite He. cbn [fst snd]. rewrite Hr. reflexivity.
  - intros kb e He Hr Hl. rewrite He. cbn [fst snd]. rewrite Hr.
    cbn [fst snd]. rewrite Hl. reflexivity.
Qed.

Lemma init_key_file_errors_witness :
  Signer.__init__
    {| fs_exists := fun _ => false;
       fs_read := fun _ => Raise (Builtin OSError);
       load_pem_private_key := fun _ => Raise (Builtin CryptographyError) |}
    sample_key_id (str "key.pem")
  = ([EvExists (str "key.pem")],
     Raise (Raised PrivateKeyNotFound
              [Fmt (PyStr (str "key.pem")); Lit (str " not found")])).
Proof.
  apply (proj1 (init_key_file_errors
                  {| fs_exists := fun _ => false;
                     fs_read := fun _ => Raise (Builtin OSError);
                     load_pem_private_key :=
                       fun _ => Raise (Builtin CryptographyError) |}
                  sample_key_id (str "key.pem") eq_refl)).
  reflexivity.
Defined.

(** ** Shape of the accepted key identifiers *)

Lemma hex_run_split (n : nat) :
  forall s r : pystr,
    hex_run n s = Some r ->
    exists pre,
      s = pre ++ r /\ List.length pre = n
      /\ Forall (fun c => is_lower_hex c = true) pre.
Proof.
  induction n as [|n IH]; intros s r; cbn [hex_run].
  - intros H. inversion H. exists []. repeat split. constructor.
  - destruct s as [|c s]; [discriminate|].
    destruct (is_lower_hex c) eqn:Hc; [|discriminate].
    intros H. destruct (IH _ _ H) as (pre & -> & Hl & Hp).
    exists (c :: pre). split; [reflexivity|]. split.
    + cbn [List.length]. now rewrite Hl.
    + now constructor.
Qed.

Lemma is_groups_shape (groups : list nat) :
  forall s : pystr,
    is_groups groups s = true ->
    (List.length s + 1 = list_sum groups + List.length groups)%nat
    /\ Forall (fun c => is_lower_hex c = true \/ c = 45%N) s.
Proof.
  induction groups as [|n more IH]; intros s; [discriminate|].
  destruct more as [|m more].
  - cbn [is_groups]. destruct (hex_run n s) as [[|c r]|] eqn:Hr;
      try discriminate. intros _.
    destruct (hex_run_split n s [] Hr) as (pre & -> & Hl & Hp).
    rewrite app_nil_r. cbn [list_sum fold_right List.length]. split; [lia|].
    eapply Forall_impl; [|exact Hp]. now left.
  - change (is_groups (n :: m :: more) s)
      with (match hex_run n s with
            | Some (c :: rest) => (c =? 45)%N && is_groups (m :: more) rest
            | _ => false
            end).
    destruct (hex_run n s) as [[|c r]|] eqn:Hr; try discriminate.
    intros H. apply andb_true_iff in H as [Hc H]. apply N.eqb_eq in Hc.
    subst c. destruct (IH r H) as [Hlen Hall].
    destruct (hex_run_split n s (45%N :: r) Hr) as (pre & -> & Hl & Hp).
    rewrite length_app. cbn [list_sum fold_right List.length] in *. split; [lia|].
    apply Forall_app. split.
    + eapply Forall_impl; [|exact Hp]. now left.
    + constructor; [now right | exact Hall].
Qed.

(** X16.  A key identifier that is not 36 or 37 characters long, or that
    holds a character other than a digit, a letter from [a] to [f], a hyphen
    or a newline (an uppercase letter, say), is refused with
    [InvalidCloudFrontKeyId] before the file system is touched. *)
Theorem malformed_key_id_refused :
  forall (env : Env) (cloudfront_key_id priv_key_file : pystr),
    ((List.length cloudfront_key_id <> 36 /\ List.length cloudfront_key_id <> 37)%nat
     \/ exists c, In c cloudfront_key_id
                  /\ is_lower_hex c = false /\ c <> 45%N /\ c <> 10%N) ->
    Signer.__init__ env cloudfront_key_id priv_key_file
    = ([], Raise invalid_key_id).
Proof.
  intros env kid path Hbad. apply init_rejects.
  destruct (Re.match_ Signer.key_id_pattern kid) eqn:Hm; [|reflexivity].
  exfalso. apply key_id_pattern_accepts in Hm as [Hu|(u & -> & Hu)];
    destruct (is_groups_shape _ _ Hu) as [Hlen Hall];
    cbn [list_sum fold_right List.length] in Hlen;
    rewrite Forall_forall in Hall.
  - destruct Hbad as [[H36 _]|(c & Hc & Hh & H45 & _)]; [lia|].
    destruct (Hall c Hc); congruence.
  - destruct Hbad as [[_ H37]|(c & Hc & Hh & H45 & H10)].
    + rewrite length_app in H37. cbn [List.length] in H37. lia.
    + apply in_app_or in Hc as [Hc|[Hc|[]]]; [|congruence].
      destruct (Hall c Hc); congruence.
Qed.

Lemma malformed_key_id_refused_witness :
  Signer.__init__ sample_env (str "550E8400-e29b-41d4-a716-446655440000")
    (str "key.pem")
  = ([], Raise invalid_key_id).
Proof.
  apply malformed_key_id_refused. right. exists 69%N.
  repeat split; try discriminate. right. right. right. left. reflexivity.
Defined.
